(** * Verification of the package import scanner (project-import-audit.py)

  The program scans a source tree for import statements, reads a
  requirements manifest, and reports the two set differences.  This file
  embeds its three functions and the reporting script in Rocq and proves
  the properties stated about them.

  Text is modelled as [string]: a sequence of characters whose code points
  are below 256 (the [ascii] type read as Latin-1).  Python sets of strings
  are [gset string]. *)

From Stdlib Require Import Ascii NArith.
From stdpp Require Import base gmap sets list strings sorting.

(** ** Python string operations used by the program *)

Module PyStr.

(** [str.isspace] on one character (code points below 256). *)
Definition is_space (c : ascii) : bool :=
  let n := N_of_ascii c in
  ((9 <=? n) && (n <=? 13) || (28 <=? n) && (n <=? 32)
   || (n =? 133) || (n =? 160))%N.

(** [str.lower] on one character (code points below 256). *)
Definition lower_char (c : ascii) : ascii :=
  let n := N_of_ascii c in
  if ((65 <=? n) && (n <=? 90)
      || (192 <=? n) && (n <=? 222) && negb (n =? 215))%N
  then ascii_of_N (n + 32) else c.

Fixpoint lower (s : string) : string :=
  match s with
  | "" => ""
  | String c r => String (lower_char c) (lower r)
  end.

(** [s.lstrip()], [s.rstrip()] and [s.strip()] without argument. *)
Fixpoint lstrip (s : string) : string :=
  match s with
  | "" => ""
  | String c r => if is_space c then lstrip r else s
  end.

Fixpoint rstrip (s : string) : string :=
  match s with
  | "" => ""
  | String c r =>
      match rstrip r with
      | "" => if is_space c then "" else String c ""
      | r' => String c r'
      end
  end.

Definition strip (s : string) : string := rstrip (lstrip s).

(** Slices [s[:k]] and [s[k:]]. *)
Fixpoint take (k : nat) (s : string) : string :=
  match k, s with
  | S k', String c r => String c (take k' r)
  | _, _ => ""
  end.

Fixpoint drop (k : nat) (s : string) : string :=
  match k, s with
  | S k', String _ r => drop k' r
  | _, _ => s
  end.

(** [s.startswith(p)] and [s.endswith(p)]. *)
Definition startswith (p s : string) : bool := String.prefix p s.

Definition endswith (p s : string) : bool :=
  (String.length p <=? String.length s)
  && String.eqb (drop (String.length s - String.length p) s) p.

(** [s.find(sub)]: the lowest index at which [sub] occurs, [None] for -1. *)
Fixpoint find (sub s : string) : option nat :=
  if String.prefix sub s then Some 0
  else match s with
       | "" => None
       | String _ r => S <$> find sub r
       end.

(** [s.split(sep)] for a non-empty separator: cut at each occurrence found
    from left to right, occurrences do not overlap. *)
Fixpoint split_loop (fuel : nat) (sep s : string) : list string :=
  match fuel with
  | 0 => [s]
  | S fuel' =>
      match find sep s with
      | None => [s]
      | Some k => take k s :: split_loop fuel' sep (drop (k + String.length sep) s)
      end
  end.

Definition split (sep s : string) : list string :=
  split_loop (String.length s) sep s.

(** [l[0]] on the result of a split, which is never empty. *)
Definition item0 (l : list string) : string := default "" (head l).

(** [sep.join(l)]. *)
Definition join (sep : string) (l : list string) : string :=
  String.concat sep l.

End PyStr.

(** ** The syntax tree returned by [ast.parse]

    Only the node classes the program inspects are distinguished; every
    other node class is [Other], with its child nodes in field order. *)

Module Ast.

(** [ast.alias]: one name of an import statement, with its optional
    [as] binding. *)
Record alias := { name : string; asname : option string }.

#[warnings="-register-all"] Inductive node :=
| Import (names : list alias)
| ImportFrom (module : option string) (names : list alias) (level : nat)
| AliasNode (a : alias)
| Other (children : list node).

(** [ast.iter_child_nodes]. *)
Definition iter_child_nodes (n : node) : list node :=
  match n with
  | Import names => AliasNode <$> names
  | ImportFrom _ names _ => AliasNode <$> names
  | AliasNode _ => []
  | Other children => children
  end.

(** The nodes of a tree: the node itself and, recursively, its children. *)
Fixpoint nodes (n : node) : list node :=
  n :: match n with
       | Import names => AliasNode <$> names
       | ImportFrom _ names _ => AliasNode <$> names
       | AliasNode _ => []
       | Other children => flat_map nodes children
       end.

Definition size (n : node) : nat := length (nodes n).

(** [ast.walk]: breadth-first, with a queue of pending nodes.  The loop
    runs once per node of the tree, which bounds its iterations. *)
Fixpoint walk_loop (fuel : nat) (todo : list node) : list node :=
  match fuel, todo with
  | S fuel', n :: rest => n :: walk_loop fuel' (rest ++ iter_child_nodes n)
  | _, _ => []
  end.

Definition walk (n : node) : list node := walk_loop (size n) [n].

End Ast.

(** ** Exceptions and results *)

Inductive exn :=
| IOError (path : string)       (* open or read failed *)
| SyntaxError (path : string).  (* ast.parse rejected the content *)

Inductive result (A : Type) :=
| Ok (a : A)
| Raise (e : exn).
Arguments Ok {A} a.
Arguments Raise {A} e.

(** Sequencing: an exception ends the computation. *)
#[global] Instance result_bind : MBind result := fun A B k r =>
  match r with
  | Ok a => k a
  | Raise e => Raise e
  end.

(** [for x in l: acc = body(acc, x)], stopping at the first exception. *)
Fixpoint for_each {A S} (l : list A) (body : S -> A -> result S) (acc : S)
: result S :=
match l with
| [] => Ok acc
| x :: l' => acc' ← body acc x; for_each l' body acc'
end.

(** ** The file system as the program observes it *)

(** [os.walk(top)] yields one triple per visited directory; [open(path).read()]
  gives the text of a file or fails. *)
Record filesystem := {
os_walk : string -> list (string * list string * list string);
open_read : string -> option string
}.

(** [os.path.join(a, b)] (POSIX). *)
Definition os_path_join (a b : string) : string :=
if PyStr.startswith "/" b then b
else if (String.eqb a "" || PyStr.endswith "/" a)%bool then a +:+ b
else a +:+ "/" +:+ b.

(** Iterating over a text file: the lines with their terminators, where
  ["\n"], ["\r"] and ["\r\n"] all end a line and read as ["\n"]. *)
Fixpoint readlines (text : string) : list string :=
match text with
| "" => []
| String c r =>
    if Ascii.eqb c "010" then "
" :: readlines r
    else if Ascii.eqb c "013" then
      match r with
      | String c' r' => if Ascii.eqb c' "010" then "
" :: readlines r' else "
" :: readlines r
      | "" => ["
"]
      end
    else match readlines r with
         | [] => [String c ""]
         | l :: ls => String c l :: ls
         end
end.

(** ** The program *)

Section Program.

(** [ast.parse]: [None] when it raises. *)
Variable ast_parse : string -> option Ast.node.
Variable fs : filesystem.

(** The body of the loop over [ast.walk(node)]. *)
Definition visit (modules : gset string) (item : Ast.node) : gset string :=
  match item with
  | Ast.Import names =>
      foldl (fun m n => m ∪ {[ PyStr.item0 (PyStr.split "." (Ast.name n)) ]})
            modules names
  | Ast.ImportFrom (Some module) _ _ =>
      if String.eqb module "" then modules
      else modules ∪ {[ PyStr.item0 (PyStr.split "." module) ]}
  | _ => modules
  end.

(** The loop of [find_imports_in_file] over the parsed tree. *)
Definition imports_of (node : Ast.node) : gset string :=
  foldl visit ∅ (Ast.walk node).

(** Opening or reading the file may fail, and so may parsing its text. *)
Definition find_imports_in_file (filename : string) : result (gset string) :=
  match open_read fs filename with
  | None => Raise (IOError filename)
  | Some text =>
      match ast_parse text with
      | None => Raise (SyntaxError filename)
      | Some node => Ok (imports_of node)
      end
  end.

(** An exception of [find_imports_in_file] is not caught: it ends the scan. *)
Definition scan_all_py_files (src_dir : string) : result (gset string) :=
  for_each (os_walk fs src_dir)
    (fun all_imports '(root, dirs, files) =>
       for_each files
         (fun all_imports file =>
            if PyStr.endswith ".py" file then
              let fpath := os_path_join root file in
              found ← find_imports_in_file fpath;
              Ok (all_imports ∪ found)
            else Ok all_imports)
         all_imports)
    ∅.

(** The version-specifier cut of one trimmed manifest line. *)
Definition base_of (line : string) : string :=
  PyStr.item0 (PyStr.split "<="
    (PyStr.item0 (PyStr.split ">="
      (PyStr.item0 (PyStr.split "==" line))))).

(** The body of the loop over the lines of the manifest. *)
Definition add_line (pkgs : gset string) (line : string) : gset string :=
  let line := PyStr.strip line in
  if (negb (String.eqb line "") && negb (PyStr.startswith "#" line))%bool
  then pkgs ∪ {[ PyStr.lower (base_of line) ]}
  else pkgs.

(** The loop of [read_requirements] over the text of the manifest. *)
Definition requirements_of (text : string) : gset string :=
  foldl add_line ∅ (readlines text).

Definition read_requirements (reqfile : string) : result (gset string) :=
  match open_read fs reqfile with
  | None => Raise (IOError reqfile)
  | Some text => Ok (requirements_of text)
  end.

(** [sorted(s)] for a set of strings: ascending by code points. *)
Definition sorted (s : gset string) : list string :=
  merge_sort String.le (elements s).

(** One [print(label, items)] call. *)
Definition print (label : string) (items : list string)
  : string * list string := (label, items).

(** [sorted(imports - reqs)] and [sorted(reqs - imports)]. *)
Definition missing (imports reqs : gset string) : list string :=
  sorted (imports ∖ reqs).

Definition unused (imports reqs : gset string) : list string :=
  sorted (reqs ∖ imports).

(** The script: the lines printed, and the exception that ended the run
    if there was one. *)
Definition main : list (string * list string) * option exn :=
  let source_dir := "." in
  let reqfile := "requirements.txt" in
  match scan_all_py_files source_dir with
  | Raise e => ([], Some e)
  | Ok imports =>
      let out1 := [print "Imports found in codebase:" (sorted imports)] in
      match read_requirements reqfile with
      | Raise e => (out1, Some e)
      | Ok reqs =>
          (out1 ++
           [print "Packages in requirements.txt:" (sorted reqs);
            print "Possibly missing in requirements.txt (used in code, not listed):"
                  (missing imports reqs);
            print "Possibly unused in codebase (listed, but not imported directly):"
                  (unused imports reqs)],
           None)
      end
  end.

End Program.


(** ** Notions used to state the properties *)

Module Spec.
Import PyStr.

(** The text before the first occurrence of [sep], all of it if there is
    none. *)
Definition before (sep s : string) : string :=
  match find sep s with
  | Some k => take k s
  | None => s
  end.

(** A root-level name has no [.] in it. *)
Definition root_level (s : string) : Prop := find "." s = None.

(** No version-specifier marker occurs in [s]. *)
Definition marker_free (s : string) : Prop :=
  find "==" s = None /\ find ">=" s = None /\ find "<=" s = None.

(** The first character of a line that is not white space. *)
Fixpoint first_nonspace (s : string) : option ascii :=
  match s with
  | "" => None
  | String c r => if is_space c then first_nonspace r else Some c
  end.

Definition earliest (a b : option nat) : option nat :=
  match a, b with
  | Some x, Some y => Some (x `min` y)
  | Some x, None => Some x
  | None, _ => b
  end.

(** The index of the earliest occurrence of any of [==], [>=], [<=]. *)
Definition first_marker (s : string) : option nat :=
  earliest (find "==" s) (earliest (find ">=" s) (find "<=" s)).

(** The text before the earliest marker, all of it if there is none. *)
Definition before_first_marker (s : string) : string :=
  match first_marker s with
  | Some k => take k s
  | None => s
  end.

(** The earliest marker is [>=] or [<=] and the text there reads [>==] or
    [<==]: its [=] also starts the first [==]. *)
Definition overlapping (s : string) : bool :=
  match first_marker s with
  | Some k => String.prefix ">==" (drop k s) || String.prefix "<==" (drop k s)
  | None => false
  end.

(** Where the three successive splits cut: at the earliest marker, one
    character later when it overlaps the first [==]. *)
Definition cut_point (s : string) : option nat :=
  match first_marker s with
  | Some k => Some (if overlapping s then S k else k)
  | None => None
  end.

Definition name_part (s : string) : string :=
  match cut_point s with
  | Some k => take k s
  | None => s
  end.

Definition marker_here (s : string) : bool :=
  String.prefix "==" s || String.prefix ">=" s || String.prefix "<=" s.

(** A manifest line that is skipped: empty after trimming, or its first
    character that is not white space is [#]. *)
Definition skipped (line : string) : Prop :=
  strip line = "" \/ first_nonspace line = Some "#"%char.

#[global] Instance skipped_dec (line : string) : Decision (skipped line).
Proof. unfold skipped. apply _. Defined.

(** The first segment of a dotted module path. *)
Definition first_segment (path : string) : string := before "." path.

(** What one node of a syntax tree contributes to the import set: the first
    segment of each module path it names. *)
Definition contributes (item : Ast.node) (x : string) : Prop :=
  match item with
  | Ast.Import names => exists a, a ∈ names /\ x = first_segment (Ast.name a)
  | Ast.ImportFrom (Some m) _ _ => m <> "" /\ x = first_segment m
  | _ => False
  end.

(** The paths of the [.py] files a scan visits, in the order of the walk. *)
Definition py_files (fs : filesystem) (src_dir : string) : list string :=
  flat_map (fun '(root, _, files) =>
              os_path_join root <$> filter (fun f => endswith ".py" f = true) files)
           (os_walk fs src_dir).

(** Two walks of the same tree: the same directories with the same entries,
    listed in any order. *)
Definition same_tree (w1 w2 : list (string * list string * list string)) : Prop :=
  exists w, w1 ≡ₚ w /\
    Forall2 (fun a b => a.1.1 = b.1.1 /\ a.1.2 ≡ₚ b.1.2 /\ a.2 ≡ₚ b.2) w w2.



(** A statement [from . import ...]: an import-from without module path. *)
Definition relative_import (stmt : Ast.node) : Prop :=
  exists names level, stmt = Ast.ImportFrom None names level.

(** No character of [s] is a dot. *)
Fixpoint dotless (s : string) : Prop :=
  match s with
  | "" => True
  | String c r => c <> "."%char /\ dotless r
  end.

Definition is_relative (stmt : Ast.node) : bool :=
  match stmt with
  | Ast.ImportFrom None _ _ => true
  | _ => false
  end.

(** The tree with every statement [from . import ...] taken out of the
    blocks that hold one, at any depth. *)
Fixpoint without_relative (n : Ast.node) : Ast.node :=
  match n with
  | Ast.Other children =>
      Ast.Other (flat_map (fun c => if is_relative c then []
                                    else [without_relative c]) children)
  | _ => n
  end.

(** A node that is neither a relative import nor an alias. *)
Definition counted (item : Ast.node) : Prop :=
  is_relative item = false /\ forall a, item <> Ast.AliasNode a.

End Spec.

(** ** Small file systems and parsers for the examples *)

Module Examples.

(** A parser known by its table: the texts it accepts, with their trees. *)
Definition parser_of (table : list (string * Ast.node)) (text : string)
  : option Ast.node :=
  (list_to_map table : gmap string Ast.node) !! text.

(** A file system known by the walk of its tree and its readable files. *)
Definition fs_of (walk : list (string * list string * list string))
    (files : list (string * string)) : filesystem :=
  {| os_walk := fun _ => walk;
     open_read := fun p => (list_to_map files : gmap string string) !! p |}.

Definition alias_of (name : string) : Ast.alias :=
  {| Ast.name := name; Ast.asname := None |}.

(** [from foo.bar import baz] *)
Definition from_foo_bar : Ast.node :=
  Ast.Other [Ast.ImportFrom (Some "foo.bar") [alias_of "baz"] 0].

(** [import os] and [import sys as s] *)
Definition import_os_sys : Ast.node :=
  Ast.Other [Ast.Import [alias_of "os"];
             Ast.Import [{| Ast.name := "sys"; Ast.asname := Some "s" |}]].

(** [from . import x] *)
Definition from_dot : Ast.node :=
  Ast.Other [Ast.ImportFrom None [alias_of "x"] 1].

(** [import requests] and [from flask import Flask] *)
Definition import_requests_flask : Ast.node :=
  Ast.Other [Ast.Import [alias_of "requests"];
             Ast.ImportFrom (Some "flask") [alias_of "Flask"] 0].

(** A tree with an unreadable [a.py] and a [b.py] that does not parse. *)
Definition fs_unreadable : filesystem :=
  fs_of [(".", [], ["a.py"; "b.py"])] [("./b.py", "x = (")].

(** Two listings of one tree: a root with two files and two directories. *)
Definition tree_files : list (string * string) :=
  [("./a.py", "import os"); ("./x/c.py", "import sys")].

Definition fs_listing1 : filesystem :=
  fs_of [(".", ["x"; "y"], ["a.py"; "notes.txt"]);
         ("./x", [], ["c.py"]); ("./y", [], [])] tree_files.

Definition fs_listing2 : filesystem :=
  fs_of [(".", ["y"; "x"], ["notes.txt"; "a.py"]);
         ("./y", [], []); ("./x", [], ["c.py"])] tree_files.

Definition parse_os_sys : string -> option Ast.node :=
  parser_of [("import os", Ast.Other [Ast.Import [alias_of "os"]]);
             ("import sys", Ast.Other [Ast.Import [alias_of "sys"]])].

(** The first listing again, with a readable [notes.txt]. *)
Definition fs_notes : filesystem :=
  fs_of [(".", ["x"; "y"], ["a.py"; "notes.txt"]);
         ("./x", [], ["c.py"]); ("./y", [], [])]
        (("./notes.txt", "import nothing") :: tree_files).

(** The root of that tree alone, without its directories. *)
Definition fs_root_only : filesystem :=
  fs_of [(".", [], ["a.py"; "notes.txt"])] tree_files.


(** A file [import PIL] beside a manifest that declares [PIL]. *)
Definition parse_pil : string -> option Ast.node :=
  parser_of [("import PIL", Ast.Other [Ast.Import [alias_of "PIL"]])].

Definition fs_pil : filesystem :=
  fs_of [(".", [], ["app.py"; "requirements.txt"])]
        [("./app.py", "import PIL"); ("requirements.txt", "PIL==9.0")].

(** [import os.path] and [import xml.etree.ElementTree as ET] *)
Definition import_dotted : Ast.node :=
  Ast.Other [Ast.Import [alias_of "os.path"];
             Ast.Import [{| Ast.name := "xml.etree.ElementTree";
                            Ast.asname := Some "ET" |}]].

(** [import os], [from . import x], and a function body holding
    [from .. import y] and [import sys] *)
Definition mixed_relative : Ast.node :=
  Ast.Other [Ast.Import [alias_of "os"];
             Ast.ImportFrom None [alias_of "x"] 1;
             Ast.Other [Ast.ImportFrom None [alias_of "y"] 2;
                        Ast.Import [alias_of "sys"]]].

End Examples.

(** ** The string operations on sample inputs *)

Example split_dots : PyStr.split "." "a.b..c" = ["a"; "b"; ""; "c"].
Proof. reflexivity. Qed.
Example split_eqeq : PyStr.split "==" "a===b==" = ["a"; "=b"; ""].
Proof. reflexivity. Qed.
Example split_empty : PyStr.split "==" "" = [""].
Proof. reflexivity. Qed.
Example strip_ex : PyStr.strip "  Requests==2.31.0
" = "Requests==2.31.0".
Proof. reflexivity. Qed.
Example lower_ex : PyStr.lower "Requests[X]" = "requests[x]".
Proof. reflexivity. Qed.
Example endswith_ex :
  PyStr.endswith ".py" "a.py" = true /\ PyStr.endswith ".py" "py" = false.
Proof. split; reflexivity. Qed.
Example readlines_ex :
  readlines (String "a" (String "013" (String "010" (String "b" (String "013" "c")))))
  = [String "a" (String "010" ""); String "b" (String "010" ""); "c"].
Proof. reflexivity. Qed.
Example join_ex : PyStr.join "." (PyStr.split "." "a.b..c") = "a.b..c".
Proof. reflexivity. Qed.

(** ** Facts about the string operations *)

Module PyStrFacts.
Import PyStr Spec.

Lemma prefix_nil_r (p : string) : String.prefix p "" = true -> p = "".
Proof. destruct p; simpl; congruence. Qed.

Lemma prefix_cons (a b : ascii) (p s : string) :
  String.prefix (String a p) (String b s)
  = (Ascii.eqb a b && String.prefix p s)%bool.
Proof.
  simpl. destruct (ascii_dec a b) as [->|Hne].
  - by rewrite Ascii.eqb_refl.
  - apply Ascii.eqb_neq in Hne. by rewrite Hne.
Qed.

Lemma prefix_take (p s : string) (k : nat) :
  String.prefix p (take k s) = true -> String.prefix p s = true.
Proof.
  revert s k. induction p as [|a p IH]; intros s k; [by destruct s|].
  destruct k as [|k], s as [|b s]; simpl; try discriminate.
  destruct (ascii_dec a b); [apply IH | discriminate].
Qed.

Lemma find_nil (sub : string) : sub <> "" -> find sub "" = None.
Proof. by destruct sub. Qed.

Lemma find_empty (sub : string) :
  find sub "" = if String.prefix sub "" then Some 0 else None.
Proof. reflexivity. Qed.

Lemma find_cons (sub : string) (c : ascii) (r : string) :
  find sub (String c r)
  = if String.prefix sub (String c r) then Some 0 else S <$> find sub r.
Proof. reflexivity. Qed.

(** [find] is the earliest occurrence: [sub] occurs at the index returned
    and at no smaller index. *)
Lemma find_Some (sub s : string) (k : nat) :
  find sub s = Some k <->
  k <= String.length s /\ String.prefix sub (drop k s) = true
  /\ forall j, j < k -> String.prefix sub (drop j s) = false.
Proof.
  revert k. induction s as [|c r IH]; intros k.
  - rewrite find_empty. destruct (String.prefix sub "") eqn:Hp.
    + split.
      * intros ?; simplify_eq. split; [lia|]. split; [done|]. intros; lia.
      * intros (Hk & _ & _). f_equal. simpl in Hk. lia.
    + split; [done|]. intros (Hk & Hp' & _).
      assert (k = 0) as -> by (simpl in Hk; lia). cbn [drop] in Hp'. congruence.
  - rewrite find_cons. destruct (String.prefix sub (String c r)) eqn:Hp.
    + split.
      * intros ?; simplify_eq. split; [simpl; lia|]. split; [done|]. intros; lia.
      * intros (_ & _ & Hmin). destruct k as [|k]; [done|].
        specialize (Hmin 0 ltac:(lia)). cbn [drop] in Hmin. congruence.
    + destruct k as [|k].
      * split; [by destruct (find sub r)|]. intros (_ & Hp' & _).
        cbn [drop] in Hp'. congruence.
      * split.
        -- destruct (find sub r) as [k'|] eqn:Hf; [|done]. intros ?; simplify_eq/=.
           destruct (proj1 (IH k) eq_refl) as (Hk & Hp' & Hmin). split; [lia|].
           split; [done|]. intros [|j] Hj; [done|]. apply Hmin. lia.
        -- intros (Hk & Hp' & Hmin).
           assert (find sub r = Some k) as ->; [|done].
           apply IH. split; [simpl in Hk; lia|]. split; [done|].
           intros j Hj. apply (Hmin (S j)). lia.
Qed.

Lemma find_None (sub s : string) :
  find sub s = None <->
  forall j, j <= String.length s -> String.prefix sub (drop j s) = false.
Proof.
  induction s as [|c r IH].
  - rewrite find_empty. destruct (String.prefix sub "") eqn:Hp.
    + split; [done|]. intros H. specialize (H 0 ltac:(lia)). cbn [drop] in H. congruence.
    + split; [|done]. intros _ [|j] Hj; [done|]. simpl in Hj; lia.
  - rewrite find_cons. destruct (String.prefix sub (String c r)) eqn:Hp.
    + split; [done|]. intros H. specialize (H 0 ltac:(simpl; lia)). cbn [drop] in H. congruence.
    + split.
      * destruct (find sub r) eqn:Hf; [done|]. intros _ [|j] Hj; [done|].
        simpl. apply IH; [done|]. simpl in Hj. lia.
      * intros H. assert (find sub r = None) as ->; [|done].
        apply IH. intros j Hj. apply (H (S j)). simpl. lia.
Qed.

Lemma item0_split (sep s : string) : item0 (split sep s) = before sep s.
Proof.
  unfold split, before. destruct s as [|c r].
  - cbn [String.length split_loop]. rewrite find_empty.
    by destruct (String.prefix sep "").
  - cbn [String.length split_loop]. by destruct (find sep (String c r)).
Qed.

Lemma before_nil (sep : string) : before sep "" = "".
Proof. unfold before. rewrite find_empty. by destruct (String.prefix sep ""). Qed.

Lemma before_cons (sep : string) (c : ascii) (r : string) :
  before sep (String c r)
  = if String.prefix sep (String c r) then "" else String c (before sep r).
Proof.
  unfold before. rewrite find_cons.
  destruct (String.prefix sep (String c r)); [done|].
  by destruct (find sep r).
Qed.

Lemma before_is_take (sep s : string) : exists k, before sep s = take k s.
Proof.
  unfold before. destruct (find sep s) as [k|]; [by exists k|].
  exists (String.length s). induction s; simpl; congruence.
Qed.

Lemma find_take_None (sub s : string) (k : nat) :
  find sub s = None -> find sub (take k s) = None.
Proof.
  revert k. induction s as [|c r IH]; intros k.
  - by destruct k.
  - rewrite find_cons. destruct (String.prefix sub (String c r)) eqn:Hp; [done|].
    destruct (find sub r) eqn:Hf; [done|]. intros _.
    destruct k as [|k].
    + cbn [take]. rewrite find_empty. destruct (String.prefix sub "") eqn:Hp'; [|done].
      apply prefix_nil_r in Hp' as ->. by destruct r.
    + cbn [take]. rewrite find_cons.
      destruct (String.prefix sub (String c (take k r))) eqn:Hp'.
      * apply (prefix_take _ (String c r) (S k)) in Hp'. congruence.
      * by rewrite IH.
Qed.

Lemma find_before_None (sub sep s : string) :
  find sub s = None -> find sub (before sep s) = None.
Proof.
  destruct (before_is_take sep s) as [k ->]. apply find_take_None.
Qed.

Lemma find_before_self (sep s : string) :
  sep <> "" -> find sep (before sep s) = None.
Proof.
  intros Hsep. induction s as [|c r IH].
  - rewrite before_nil. by apply find_nil.
  - rewrite before_cons. destruct (String.prefix sep (String c r)) eqn:Hp.
    + by apply find_nil.
    + rewrite find_cons, IH.
      destruct (String.prefix sep (String c (before sep r))) eqn:Hp'; [|done].
      destruct (before_is_take sep r) as [k Hk]. rewrite Hk in Hp'.
      apply (prefix_take _ (String c r) (S k)) in Hp'. congruence.
Qed.

End PyStrFacts.

(** ** Facts about [split] as a whole *)

Module SplitFacts.
Import PyStr Spec PyStrFacts.

Lemma length_drop (k : nat) (s : string) :
  String.length (drop k s) = String.length s - k.
Proof.
  revert s. induction k as [|k IH]; intros [|c r]; cbn [drop String.length];
    by rewrite ?Nat.sub_0_r.
Qed.

Lemma prefix_length (p s : string) :
  String.prefix p s = true -> String.length p <= String.length s.
Proof.
  revert s. induction p as [|a p IH]; intros [|b s]; cbn [String.length];
    try (intros; lia).
  - done.
  - rewrite prefix_cons. intros [_ ?%IH]%andb_prop. lia.
Qed.

Lemma find_bound (sep s : string) (k : nat) :
  find sep s = Some k -> k + String.length sep <= String.length s.
Proof.
  intros (Hk & Hp%prefix_length & _)%find_Some. rewrite length_drop in Hp. lia.
Qed.

(** The loop of [split] never runs out of fuel: more of it changes
    nothing. *)
Lemma split_loop_fuel (sep s : string) (fuel : nat) :
  sep <> "" -> String.length s <= fuel ->
  split_loop fuel sep s = split sep s.
Proof.
  intros Hsep. unfold split.
  assert (forall f1 f2 s, String.length s <= f1 -> String.length s <= f2 ->
            split_loop f1 sep s = split_loop f2 sep s) as Hfuel.
  { clear s fuel. induction f1 as [|f1 IH]; intros f2 s H1 H2.
    - destruct s; [|cbn in H1; lia]. destruct f2; [done|].
      cbn [split_loop]. by rewrite find_nil.
    - destruct f2 as [|f2].
      + destruct s; [|cbn in H2; lia]. cbn [split_loop]. by rewrite find_nil.
      + cbn [split_loop]. destruct (find sep s) as [k|] eqn:Hk; [|done].
        f_equal. apply find_bound in Hk.
        assert (0 < String.length sep) by (destruct sep; [done|cbn; lia]).
        apply IH; rewrite length_drop; lia. }
  intros Hlen. by apply Hfuel.
Qed.

Lemma take_drop (k : nat) (s : string) : take k s +:+ drop k s = s.
Proof.
  revert s. induction k as [|k IH]; intros [|c r]; try reflexivity.
  change (String c (take k r +:+ drop k r) = String c r). by rewrite IH.
Qed.

Lemma drop_drop (a b : nat) (s : string) : drop a (drop b s) = drop (b + a) s.
Proof.
  revert s. induction b as [|b IH]; intros s; [done|].
  destruct s as [|c r]; [by destruct a|]. cbn [drop Nat.add]. apply IH.
Qed.

Lemma prefix_drop (p s : string) :
  String.prefix p s = true -> s = p +:+ drop (String.length p) s.
Proof.
  revert s. induction p as [|a p IH]; intros s; [done|].
  destruct s as [|b s]; [done|]. rewrite prefix_cons.
  intros [->%Ascii.eqb_eq Hp%IH]%andb_prop.
  change (String b s = String b (p +:+ drop (String.length p) s)). by f_equal.
Qed.

(** Joining the fields of a split with the separator gives the text back. *)
Lemma join_split (sep s : string) : join sep (split sep s) = s.
Proof.
  unfold split, join. generalize (String.length s) as fuel. intros fuel.
  revert s. induction fuel as [|fuel IH]; intros s; [done|].
  cbn [split_loop]. destruct (find sep s) as [k|] eqn:Hk; [|done].
  specialize (IH (drop (k + String.length sep) s)).
  destruct (split_loop fuel sep (drop (k + String.length sep) s)) as [|x l] eqn:Hl.
  { by destruct fuel; cbn in Hl; [|destruct (find sep _)]. }
  cbn [String.concat]. cbn [String.concat] in IH. rewrite IH.
  apply find_Some in Hk as (_ & Hp%prefix_drop & _).
  rewrite drop_drop in Hp. rewrite <- Hp. apply take_drop.
Qed.

End SplitFacts.

(** ** Version-specifier markers in a manifest line *)

Module Markers.
Import PyStr Spec PyStrFacts.

Lemma prefix_empty (s : string) : String.prefix "" s = true.
Proof. by destruct s. Qed.

Lemma first_marker_cons (c : ascii) (r : string) :
  first_marker (String c r)
  = if marker_here (String c r) then Some 0 else S <$> first_marker r.
Proof.
  unfold first_marker, marker_here. rewrite !find_cons.
  destruct (String.prefix "==" (String c r)),
    (String.prefix ">=" (String c r)), (String.prefix "<=" (String c r)),
    (find "==" r), (find ">=" r), (find "<=" r); try reflexivity.
Qed.

Lemma name_part_cons (c : ascii) (r : string) :
  name_part (String c r)
  = if marker_here (String c r)
    then if String.prefix ">==" (String c r) || String.prefix "<==" (String c r)
         then String c "" else ""
    else String c (name_part r).
Proof.
  unfold name_part, cut_point, overlapping. rewrite first_marker_cons.
  destruct (marker_here (String c r)).
  - cbn [drop]. by destruct (_ || _).
  - destruct (first_marker r) as [k|]; [|done]. cbn [fmap option_fmap option_map drop].
    by destruct (_ || _).
Qed.

Lemma starts_eq_before_eqeq (r : string) :
  String.prefix "=" (before "==" r)
  = String.prefix "=" r && negb (String.prefix "==" r).
Proof.
  destruct r as [|c r]; [by rewrite before_nil|]. rewrite before_cons.
  destruct (String.prefix "==" (String c r)).
  - by rewrite andb_false_r.
  - rewrite !prefix_cons, !prefix_empty. cbn [negb]. by rewrite !andb_true_r.
Qed.

Lemma starts_eq_before_ge (sep r : string) (c : ascii) :
  c <> "="%char ->
  String.prefix "=" (before (String c sep) r) = String.prefix "=" r.
Proof.
  intros Hc. destruct r as [|a r]; [by rewrite before_nil|]. rewrite before_cons.
  destruct (String.prefix (String c sep) (String a r)) eqn:Hp.
  - rewrite prefix_cons in Hp. apply andb_prop in Hp as [->%Ascii.eqb_eq _].
    rewrite prefix_cons. apply Ascii.eqb_neq in Hc.
    rewrite Ascii.eqb_sym in Hc. by rewrite Hc.
  - by rewrite !prefix_cons, !prefix_empty.
Qed.

Lemma prefix_eqeq_eq (r : string) :
  String.prefix "==" r = true -> String.prefix "=" r = true.
Proof.
  destruct r as [|c r]; [done|]. rewrite !prefix_cons, prefix_empty.
  intros [-> _]%andb_prop. done.
Qed.

End Markers.

Module MarkersCut.
Import PyStr Spec PyStrFacts Markers.

Lemma base_of_before (s : string) :
  base_of s = before "<=" (before ">=" (before "==" s)).
Proof. unfold base_of. by rewrite !item0_split. Qed.

Lemma base_of_eqeq (s : string) : String.prefix "==" s = true -> base_of s = "".
Proof.
  intros Hp. rewrite base_of_before. destruct s as [|c r]; [done|].
  by rewrite before_cons, Hp, !before_nil.
Qed.

(** The three successive splits cut at [cut_point]. *)
Lemma base_of_name_part (s : string) : base_of s = name_part s.
Proof.
  induction s as [|c r IH]; [done|].
  rewrite name_part_cons. unfold marker_here.
  rewrite base_of_before, before_cons.
  destruct (String.prefix "==" (String c r)) eqn:H1.
  - rewrite !before_nil. cbn [orb].
    rewrite prefix_cons in H1. apply andb_prop in H1 as [<-%Ascii.eqb_eq _].
    by rewrite !prefix_cons.
  - assert (before "<=" (String c (before ">=" (before "==" r)))
            = if Ascii.eqb "<" c && (String.prefix "=" r && negb (String.prefix "==" r))
              then "" else String c (base_of r)) as Hlt.
    { rewrite before_cons, prefix_cons, (starts_eq_before_ge "=" _ ">") by done.
      by rewrite starts_eq_before_eqeq, base_of_before. }
    rewrite (before_cons ">="), (prefix_cons ">" c "="), starts_eq_before_eqeq.
    rewrite (prefix_cons ">" c "="), (prefix_cons "<" c "=").
    rewrite (prefix_cons ">" c "=="), (prefix_cons "<" c "==").
    destruct (String.prefix "==" r) eqn:P2.
    + rewrite (prefix_eqeq_eq _ P2) in *. rewrite (base_of_eqeq _ P2) in Hlt.
      cbn [negb orb] in *. rewrite !andb_false_r in *. rewrite !andb_true_r.
      rewrite Hlt. rewrite <- IH, (base_of_eqeq _ P2).
      by destruct (Ascii.eqb ">" c), (Ascii.eqb "<" c).
    + cbn [negb orb] in *. rewrite !andb_false_r, !andb_true_r in *.
      rewrite <- IH.
      destruct (Ascii.eqb ">" c), (Ascii.eqb "<" c), (String.prefix "=" r);
        cbn [andb orb] in *; rewrite ?before_nil, ?Hlt; done.
Qed.

Lemma base_of_before_first_marker (s : string) :
  overlapping s = false -> base_of s = before_first_marker s.
Proof.
  intros Ho. rewrite base_of_name_part.
  unfold name_part, cut_point, before_first_marker. rewrite Ho.
  by destruct (first_marker s).
Qed.

Lemma base_of_overlapping (s : string) (k : nat) :
  first_marker s = Some k -> overlapping s = true -> base_of s = take (S k) s.
Proof.
  intros Hk Ho. rewrite base_of_name_part. unfold name_part, cut_point.
  by rewrite Hk, Ho.
Qed.

End MarkersCut.

(** ** Facts about trimming and lower-casing *)

Module LineFacts.
Import PyStr Spec PyStrFacts Markers.

(** A character of a marker, or the dot, is no letter: lower-casing neither
    changes nor creates it. *)
Definition caseless_char (a : ascii) : Prop :=
  forall c, Ascii.eqb a (lower_char c) = Ascii.eqb a c.

Fixpoint caseless (m : string) : Prop :=
  match m with
  | "" => True
  | String a m' => caseless_char a /\ caseless m'
  end.

Lemma caseless_eq : caseless_char "=".
Proof. intros [[] [] [] [] [] [] [] []]; reflexivity. Qed.
Lemma caseless_gt : caseless_char ">".
Proof. intros [[] [] [] [] [] [] [] []]; reflexivity. Qed.
Lemma caseless_lt : caseless_char "<".
Proof. intros [[] [] [] [] [] [] [] []]; reflexivity. Qed.

Lemma prefix_lower (m s : string) :
  caseless m -> String.prefix m (lower s) = String.prefix m s.
Proof.
  revert s. induction m as [|a m IH]; intros s Hm; [by destruct s|].
  destruct Hm as [Ha Hm]. destruct s as [|c s]; [done|].
  cbn [lower]. by rewrite !prefix_cons, Ha, IH.
Qed.


(** Trimming on the left stops at the first character that is not white
    space. *)
Lemma lstrip_first_nonspace (s : string) :
  match first_nonspace s with
  | None => lstrip s = ""
  | Some c => is_space c = false /\ exists r, lstrip s = String c r
  end.
Proof.
  induction s as [|c r IH]; [done|]. cbn [first_nonspace lstrip].
  destruct (is_space c) eqn:Hc; [done|]. split; [done|]. by exists r.
Qed.

Lemma rstrip_cons_nonspace (c : ascii) (r : string) :
  is_space c = false -> exists r', rstrip (String c r) = String c r'.
Proof.
  intros Hc. cbn [rstrip]. rewrite Hc. destruct (rstrip r) as [|c' r'].
  - by exists "".
  - by exists (String c' r').
Qed.

Lemma strip_first_nonspace (s : string) :
  match first_nonspace s with
  | None => strip s = ""
  | Some c => exists r, strip s = String c r
  end.
Proof.
  unfold strip. pose proof (lstrip_first_nonspace s) as H.
  destruct (first_nonspace s) as [c|].
  - destruct H as (Hc & r & ->). by apply rstrip_cons_nonspace.
  - by rewrite H.
Qed.

Lemma strip_empty (s : string) : strip s = "" <-> first_nonspace s = None.
Proof.
  pose proof (strip_first_nonspace s) as H.
  destruct (first_nonspace s) as [c|]; [|done].
  destruct H as [r ->]. done.
Qed.

Lemma strip_startswith (a : ascii) (s : string) :
  startswith (String a "") (strip s) = true <-> first_nonspace s = Some a.
Proof.
  unfold startswith. pose proof (strip_first_nonspace s) as H.
  destruct (first_nonspace s) as [c|].
  - destruct H as [r ->]. rewrite prefix_cons, prefix_empty, andb_true_r.
    rewrite Ascii.eqb_eq. split; congruence.
  - by rewrite H.
Qed.

End LineFacts.

(** ** The manifest reader *)

Module ManifestFacts.
Import PyStr Spec PyStrFacts Markers MarkersCut LineFacts.

Lemma add_line_skipped (pkgs : gset string) (line : string) :
  skipped line -> add_line pkgs line = pkgs.
Proof.
  unfold add_line. intros [He|Hc].
  - by rewrite He.
  - apply strip_startswith in Hc. rewrite Hc. by rewrite andb_false_r.
Qed.

Lemma add_line_kept (pkgs : gset string) (line : string) :
  ¬ skipped line ->
  add_line pkgs line = pkgs ∪ {[ lower (base_of (strip line)) ]}.
Proof.
  unfold add_line, skipped. intros Hk.
  destruct (String.eqb_spec (strip line) "") as [He|_]; [tauto|].
  destruct (startswith "#" (strip line)) eqn:Hc; [|done].
  apply strip_startswith in Hc. tauto.
Qed.

Lemma elem_of_foldl_add_line (ls : list string) (acc : gset string) (x : string) :
  x ∈ foldl add_line acc ls <->
  x ∈ acc \/ exists line, line ∈ ls /\ ¬ skipped line
                          /\ x = lower (base_of (strip line)).
Proof.
  revert acc. induction ls as [|l ls IH]; intros acc; cbn [foldl].
  - split; [auto|]. intros [?|(? & []%elem_of_nil & _)]; done.
  - rewrite IH. destruct (decide (skipped l)) as [Hs|Hk].
    + rewrite add_line_skipped by done.
      split; (intros [?|(line & Hin & Hk & Hx)]; [by left|]).
      * right. exists line. rewrite elem_of_cons. auto.
      * apply elem_of_cons in Hin as [->|Hin]; [done|]. right. by exists line.
    + rewrite add_line_kept by done. rewrite elem_of_union, elem_of_singleton.
      split.
      * intros [[?| ->]|(line & Hin & Hk' & Hx)];
          [by left|right; exists l|right; exists line]; rewrite elem_of_cons; auto.
      * intros [?|(line & Hin & Hk' & Hx)]; [by left; left|].
        apply elem_of_cons in Hin as [->|Hin]; [left; by right|].
        right. by exists line.
Qed.

Lemma elem_of_requirements_of (text x : string) :
  x ∈ requirements_of text <->
  exists line, line ∈ readlines text /\ ¬ skipped line
               /\ x = lower (base_of (strip line)).
Proof.
  unfold requirements_of. rewrite elem_of_foldl_add_line.
  split; [intros [[]%elem_of_empty|?]; done|by right].
Qed.

(** Skipped lines can be dropped from the manifest without changing the
    result. *)
Lemma foldl_add_line_filter (ls : list string) (acc : gset string) :
  foldl add_line acc ls = foldl add_line acc (filter (fun l => ¬ skipped l) ls).
Proof.
  revert acc. induction ls as [|l ls IH]; intros acc; [done|].
  rewrite filter_cons. destruct (decide (¬ skipped l)) as [Hk|Hs]; cbn [foldl].
  - apply IH.
  - rewrite add_line_skipped; [apply IH|]. by apply dec_stable.
Qed.

(** The name kept from a line carries none of the three markers. *)
Lemma base_of_marker_free (s : string) : marker_free (base_of s).
Proof.
  rewrite base_of_before. repeat split.
  - do 2 apply find_before_None. by apply find_before_self.
  - apply find_before_None. by apply find_before_self.
  - by apply find_before_self.
Qed.


End ManifestFacts.

(** ** The import extractor *)

Module ExtractFacts.
Import PyStr Spec PyStrFacts.

Lemma nodes_children (n : Ast.node) :
  Ast.nodes n = n :: flat_map Ast.nodes (Ast.iter_child_nodes n).
Proof.
  destruct n as [names|m names lvl|a|cs]; cbn [Ast.nodes Ast.iter_child_nodes];
    f_equal; try done; induction names as [|a names IH]; cbn; by f_equal.
Qed.

Lemma flat_map_app {A B} (f : A -> list B) (l1 l2 : list A) :
  flat_map f (l1 ++ l2) = flat_map f l1 ++ flat_map f l2.
Proof. induction l1 as [|x l1 IH]; cbn; [done|]. by rewrite IH, app_assoc. Qed.

Lemma elem_of_flat_map {A B} (f : A -> list B) (l : list A) (y : B) :
  y ∈ flat_map f l <-> exists x, x ∈ l /\ y ∈ f x.
Proof.
  rewrite list_elem_of_In, in_flat_map. split; intros (x & ? & ?); exists x;
    by rewrite ?list_elem_of_In in *.
Qed.

(** With fuel for every pending node and its descendants, the loop of
    [ast.walk] yields each of them once. *)
Lemma walk_loop_nodes (fuel : nat) (todo : list Ast.node) :
  length (flat_map Ast.nodes todo) <= fuel ->
  Ast.walk_loop fuel todo ≡ₚ flat_map Ast.nodes todo.
Proof.
  revert todo. induction fuel as [|fuel IH]; intros todo Hlen.
  - destruct todo as [|n rest]; [done|].
    cbn [flat_map] in Hlen. rewrite (nodes_children n) in Hlen. cbn in Hlen. lia.
  - destruct todo as [|n rest]; [done|]. cbn [Ast.walk_loop flat_map].
    rewrite (nodes_children n). cbn [app]. constructor.
    rewrite IH.
    + rewrite flat_map_app. apply Permutation_app_comm.
    + cbn [flat_map] in Hlen. rewrite (nodes_children n) in Hlen.
      rewrite flat_map_app, length_app. cbn in Hlen. rewrite length_app in Hlen. lia.
Qed.

Lemma walk_nodes (n : Ast.node) : Ast.walk n ≡ₚ Ast.nodes n.
Proof.
  unfold Ast.walk, Ast.size. rewrite walk_loop_nodes; cbn [flat_map].
  - by rewrite app_nil_r.
  - by rewrite app_nil_r.
Qed.

Lemma elem_of_walk (n x : Ast.node) : x ∈ Ast.walk n <-> x ∈ Ast.nodes n.
Proof. by rewrite walk_nodes. Qed.

Lemma elem_of_foldl_names (names : list Ast.alias) (acc : gset string) (x : string) :
  x ∈ foldl (fun m n => m ∪ {[ item0 (split "." (Ast.name n)) ]}) acc names <->
  x ∈ acc \/ exists a, a ∈ names /\ x = first_segment (Ast.name a).
Proof.
  revert acc. induction names as [|a names IH]; intros acc; cbn [foldl].
  - split; [auto|]. intros [?|(? & []%elem_of_nil & _)]; done.
  - rewrite IH, elem_of_union, elem_of_singleton, item0_split. split.
    + intros [[?| ->]|(b & Hin & ->)]; [by left|right; exists a|right; exists b];
        rewrite elem_of_cons; auto.
    + intros [?|(b & Hin & ->)]; [by left; left|].
      apply elem_of_cons in Hin as [->|Hin]; [left; by right|].
      right. by exists b.
Qed.

Lemma elem_of_visit (item : Ast.node) (acc : gset string) (x : string) :
  x ∈ visit acc item <-> x ∈ acc \/ contributes item x.
Proof.
  destruct item as [names|[m|] names lvl|a|cs]; cbn [visit contributes];
    try tauto.
  - apply elem_of_foldl_names.
  - destruct (String.eqb_spec m "") as [->|Hm]; [tauto|].
    rewrite elem_of_union, elem_of_singleton, item0_split. unfold first_segment. tauto.
Qed.

Lemma elem_of_foldl_visit (items : list Ast.node) (acc : gset string) (x : string) :
  x ∈ foldl visit acc items <->
  x ∈ acc \/ exists item, item ∈ items /\ contributes item x.
Proof.
  revert acc. induction items as [|i items IH]; intros acc; cbn [foldl].
  - split; [auto|]. intros [?|(? & []%elem_of_nil & _)]; done.
  - rewrite IH, elem_of_visit. split.
    + intros [[?|?]|(j & Hin & ?)]; [by left|right; exists i|right; exists j];
        rewrite elem_of_cons; auto.
    + intros [?|(j & Hin & ?)]; [by left; left|].
      apply elem_of_cons in Hin as [->|Hin]; [left; by right|].
      right. by exists j.
Qed.

(** The import set of a tree: what its nodes contribute, and nothing else. *)
Lemma elem_of_imports_of (tree : Ast.node) (x : string) :
  x ∈ imports_of tree <->
  exists item, item ∈ Ast.nodes tree /\ contributes item x.
Proof.
  unfold imports_of. rewrite elem_of_foldl_visit. split.
  - intros [[]%elem_of_empty|(item & Hin & ?)]. exists item.
    by rewrite <- elem_of_walk.
  - intros (item & Hin & ?). right. exists item. by rewrite elem_of_walk.
Qed.

Lemma first_segment_root_level (path : string) : root_level (first_segment path).
Proof. by apply find_before_self. Qed.

End ExtractFacts.

(** ** The source scanner *)

Module ScanFacts.
Import PyStr Spec.

Lemma for_each_app {A S} (l1 l2 : list A) (body : S -> A -> result S) (acc : S) :
  for_each (l1 ++ l2) body acc = for_each l1 body acc ≫= for_each l2 body.
Proof.
  revert acc. induction l1 as [|x l1 IH]; intros acc; [done|].
  cbn [app for_each]. destruct (body acc x) as [acc'|e]; [apply IH|done].
Qed.

Section scan.
Variable ast_parse : string -> option Ast.node.
Variable fs : filesystem.

Local Abbreviation find_file := (find_imports_in_file ast_parse fs).
Local Abbreviation scan_file :=
  (fun (acc : gset string) (p : string) => found ← find_file p; Ok (acc ∪ found)).

(** The two nested loops visit [py_files] in order. *)
Lemma scan_py_files (src_dir : string) :
  scan_all_py_files ast_parse fs src_dir
  = for_each (py_files fs src_dir) scan_file ∅.
Proof.
  unfold scan_all_py_files, py_files. generalize (∅ : gset string).
  induction (os_walk fs src_dir) as [|[[root dirs] files] w IH]; intros acc; [done|].
  cbn [for_each flat_map]. rewrite for_each_app.
  assert (forall acc0,
    for_each files
      (fun all_imports file =>
         if endswith ".py" file
         then found ← find_file (os_path_join root file); Ok (all_imports ∪ found)
         else Ok all_imports) acc0
    = for_each (os_path_join root <$> filter (fun f => endswith ".py" f = true) files)
        scan_file acc0) as ->.
  { clear. induction files as [|f files IH]; intros acc0; [done|].
    rewrite filter_cons. cbn [for_each].
    destruct (endswith ".py" f) eqn:Hpy.
    - rewrite decide_True by done. cbn [fmap list_fmap for_each].
      destruct (find_file (os_path_join root f)); [apply IH|done].
    - rewrite decide_False by done. apply IH. }
  destruct (for_each _ scan_file acc) as [acc'|e]; [apply IH|done].
Qed.

Lemma for_each_scan_ok (ps : list string) (acc s : gset string) :
  for_each ps scan_file acc = Ok s ->
  (forall p, p ∈ ps -> exists f, find_file p = Ok f)
  /\ forall x, x ∈ s <->
       x ∈ acc \/ exists p f, p ∈ ps /\ find_file p = Ok f /\ x ∈ f.
Proof.
  revert acc. induction ps as [|p ps IH]; intros acc; cbn [for_each].
  - intros [= <-]. split; [by intros ? ?%elem_of_nil|].
    intros x. split; [auto|]. intros [?|(? & ? & []%elem_of_nil & _)]; done.
  - destruct (find_file p) as [f|e] eqn:Hp; [|done]. cbn.
    intros [Hall Hin]%IH. split.
    + intros q [->|?]%elem_of_cons; [by exists f|by apply Hall].
    + intros x. rewrite Hin, elem_of_union. split.
      * intros [[?|?]|(q & g & ? & ? & ?)]; [by left| |].
        -- right. exists p, f. rewrite elem_of_cons. auto.
        -- right. exists q, g. rewrite elem_of_cons. auto.
      * intros [?|(q & g & [->|?]%elem_of_cons & Hq & ?)]; [by left; left| |].
        -- left. right. congruence.
        -- right. by exists q, g.
Qed.

Lemma for_each_scan_all_ok (ps : list string) (acc : gset string) :
  (forall p, p ∈ ps -> exists f, find_file p = Ok f) ->
  exists s, for_each ps scan_file acc = Ok s.
Proof.
  revert acc. induction ps as [|p ps IH]; intros acc Hall; cbn [for_each].
  - by exists acc.
  - destruct (Hall p) as [f ->]; [by left|]. cbn. apply IH.
    intros q ?. apply Hall. by right.
Qed.

(** The scan raises what the first failing file raises. *)
Lemma for_each_scan_raise (ps : list string) (acc : gset string) (e : exn) :
  for_each ps scan_file acc = Raise e <->
  exists pre p post, ps = pre ++ p :: post
    /\ (forall q, q ∈ pre -> exists f, find_file q = Ok f)
    /\ find_file p = Raise e.
Proof.
  revert acc. induction ps as [|p ps IH]; intros acc; cbn [for_each].
  - split; [done|]. intros (pre & ? & ? & Heq & _). by destruct pre.
  - destruct (find_file p) as [f|e'] eqn:Hp; cbn.
    + rewrite IH. split.
      * intros (pre & q & post & -> & Hpre & Hq). exists (p :: pre), q, post.
        split; [done|]. split; [|done].
        intros r [->|?]%elem_of_cons; [by exists f|by apply Hpre].
      * intros (pre & q & post & Heq & Hpre & Hq). destruct pre as [|p' pre].
        -- cbn in Heq. simplify_eq. congruence.
        -- cbn in Heq. simplify_eq. exists pre, q, post. split; [done|].
           split; [|done]. intros r ?. apply Hpre. by right.
    + split.
      * intros [= ->]. exists [], p, ps. split; [done|]. split; [|done].
        by intros ? ?%elem_of_nil.
      * intros (pre & q & post & Heq & Hpre & Hq). destruct pre as [|p' pre].
        -- cbn in Heq. simplify_eq. congruence.
        -- cbn in Heq. simplify_eq. destruct (Hpre p') as [f Hf]; [by left|].
           congruence.
Qed.

End scan.

(** Reading a file depends on the file system through [open_read] only. *)
Lemma find_imports_in_file_ext ast_parse (fs1 fs2 : filesystem) (p : string) :
  open_read fs1 p = open_read fs2 p ->
  find_imports_in_file ast_parse fs1 p = find_imports_in_file ast_parse fs2 p.
Proof. unfold find_imports_in_file. by intros ->. Qed.

Lemma py_files_same_tree (fs1 fs2 : filesystem) (src_dir : string) :
  same_tree (os_walk fs1 src_dir) (os_walk fs2 src_dir) ->
  py_files fs1 src_dir ≡ₚ py_files fs2 src_dir.
Proof.
  unfold py_files. intros (w & Hperm & Hall).
  etrans; [by apply Permutation_flat_map|]. clear Hperm.
  induction Hall as [|[[r1 d1] f1] [[r2 d2] f2] w1 w2 (Hr & _ & Hf) _ IH]; [done|].
  cbn [flat_map]. cbn in Hr, Hf. subst r2. by rewrite Hf, IH.
Qed.

End ScanFacts.

(** ** Properties of the manifest reader *)

Module Manifest.
Import PyStr Spec PyStrFacts Markers MarkersCut LineFacts ManifestFacts.

Lemma read_requirements_ok (fs : filesystem) (reqfile text : string) :
  open_read fs reqfile = Some text ->
  read_requirements fs reqfile = Ok (requirements_of text).
Proof. unfold read_requirements. by intros ->. Qed.

(** A line that starts with a marker is not skipped. *)
Lemma marker_here_kept (line : string) :
  marker_here (strip line) = true -> ¬ skipped line.
Proof.
  intros Hm [He|Hc].
  - by rewrite He in Hm.
  - apply strip_startswith in Hc. unfold startswith in Hc.
    destruct (strip line) as [|c r]; [done|].
    rewrite prefix_cons in Hc. apply andb_prop in Hc as [<-%Ascii.eqb_eq _].
    unfold marker_here in Hm. by rewrite !prefix_cons in Hm.
Qed.

(** C1 (as stated, refuted): the manifest line [pkg>==1.0] is not skipped
    and the text before its earliest marker, lower-cased, is [pkg]; the
    reader adds [pkg>] instead, and [pkg] is not in its result. *)
Lemma C1_counterexample :
  "pkg>==1.0" ∈ readlines "pkg>==1.0"
  /\ ¬ skipped "pkg>==1.0"
  /\ lower (before_first_marker (strip "pkg>==1.0")) = "pkg"
  /\ requirements_of "pkg>==1.0" = {[ "pkg>" ]}
  /\ "pkg" ∉ requirements_of "pkg>==1.0".
Proof.
  split; [by left|]. split; [by intros [?|?]|]. split; [done|].
  split; [by vm_compute|]. by vm_compute.
Qed.

(** C1 (amended): every manifest line that is not skipped adds the
    lower-cased text of the trimmed line before the earliest of the markers
    [==], [>=], [<=] (the whole trimmed line if there is none), except when
    that earliest marker is [>=] or [<=] directly followed by [=]: then the
    cut falls one character later and the [>] or [<] is kept.  The line
    [Requests==2.31.0] gives [requests] and [numpy>=1.20] gives [numpy]. *)
Theorem C1_manifest_line (fs : filesystem) (reqfile text line : string) :
  open_read fs reqfile = Some text ->
  line ∈ readlines text ->
  ¬ skipped line ->
  exists pkgs, read_requirements fs reqfile = Ok pkgs
    /\ lower (base_of (strip line)) ∈ pkgs
    /\ (overlapping (strip line) = false ->
        base_of (strip line) = before_first_marker (strip line))
    /\ (forall k, first_marker (strip line) = Some k ->
        overlapping (strip line) = true ->
        base_of (strip line) = take (S k) (strip line))
    /\ requirements_of "Requests==2.31.0" = {[ "requests" ]}
    /\ requirements_of "numpy>=1.20" = {[ "numpy" ]}.
Proof.
  intros Hopen Hline Hkept. exists (requirements_of text).
  split; [by apply read_requirements_ok|].
  split; [apply elem_of_requirements_of; by exists line|].
  split; [apply base_of_before_first_marker|].
  split; [apply base_of_overlapping|].
  split; by vm_compute.
Qed.

(** The manifest of the examples: two pinned packages. *)
Lemma C1_manifest_line_witness :
  exists pkgs,
    read_requirements
      (Examples.fs_of [] [("requirements.txt", "Requests==2.31.0
numpy>=1.20")]) "requirements.txt" = Ok pkgs
    /\ "numpy" ∈ pkgs.
Proof.
  destruct (C1_manifest_line
    (Examples.fs_of [] [("requirements.txt", "Requests==2.31.0
numpy>=1.20")]) "requirements.txt" "Requests==2.31.0
numpy>=1.20" "numpy>=1.20") as (pkgs & Hok & Hin & _).
  - reflexivity.
  - vm_compute. right. left.
  - intros [He|Hc]; [vm_compute in He|vm_compute in Hc]; discriminate.
  - exists pkgs. split; [exact Hok|]. exact Hin.
Defined.

(** C8: a manifest line that is empty after trimming, or whose first
    character that is not white space is [#], adds nothing; every element
    of the result comes from a line that is not skipped, and a manifest of
    skipped lines only gives the empty set. *)
Theorem C8_skipped_lines (fs : filesystem) (reqfile text : string) :
  open_read fs reqfile = Some text ->
  exists pkgs, read_requirements fs reqfile = Ok pkgs
    /\ (forall acc line, skipped line -> add_line acc line = acc)
    /\ pkgs = foldl add_line ∅ (filter (fun l => ¬ skipped l) (readlines text))
    /\ (forall x, x ∈ pkgs ->
          exists line, line ∈ readlines text /\ ¬ skipped line
                       /\ x = lower (base_of (strip line)))
    /\ ((forall line, line ∈ readlines text -> skipped line) -> pkgs = ∅).
Proof.
  intros Hopen. exists (requirements_of text).
  split; [by apply read_requirements_ok|].
  split; [apply add_line_skipped|].
  split; [apply foldl_add_line_filter|].
  split; [intros x; apply elem_of_requirements_of|].
  intros Hall. apply set_eq. intros x. rewrite elem_of_requirements_of.
  split; [|by intros ?%elem_of_empty].
  intros (line & Hin & Hk & _). destruct Hk. by apply Hall.
Qed.

(** A manifest of one comment, one empty line and one blank line. *)
Lemma C8_skipped_lines_witness :
  read_requirements
    (Examples.fs_of [] [("requirements.txt", "# comment

   ")]) "requirements.txt" = Ok ∅.
Proof.
  destruct (C8_skipped_lines
    (Examples.fs_of [] [("requirements.txt", "# comment

   ")]) "requirements.txt" "# comment

   " eq_refl) as (pkgs & Hok & _ & _ & _ & Hempty).
  rewrite Hok. f_equal. apply Hempty.
  intros line Hin. vm_compute in Hin.
  repeat (apply elem_of_cons in Hin as [->|Hin]);
    [right; reflexivity|left; reflexivity|left; reflexivity|].
  by apply elem_of_nil in Hin.
Defined.

(** C10 (as stated, refuted): the trimmed line [>==1.0] begins with the
    marker [>=], yet the reader adds [>] and not the empty string. *)
Lemma C10_counterexample :
  ">==1.0" ∈ readlines ">==1.0"
  /\ ¬ skipped ">==1.0"
  /\ String.prefix ">=" (strip ">==1.0") = true
  /\ requirements_of ">==1.0" = {[ ">" ]}
  /\ "" ∉ requirements_of ">==1.0".
Proof.
  split; [by left|]. split; [by intros [?|?]|]. split; [done|].
  split; by vm_compute.
Qed.

(** C10 (amended): a manifest line whose trimmed text begins with [==], or
    begins with [>=] or [<=] not directly followed by a further [=], is not
    skipped and adds the empty string to the declared set; the line [==1.0]
    does. *)
Theorem C10_leading_marker (fs : filesystem) (reqfile text line : string) :
  open_read fs reqfile = Some text ->
  line ∈ readlines text ->
  String.prefix "==" (strip line) = true
  \/ String.prefix ">=" (strip line) = true /\ String.prefix ">==" (strip line) = false
  \/ String.prefix "<=" (strip line) = true /\ String.prefix "<==" (strip line) = false ->
  exists pkgs, read_requirements fs reqfile = Ok pkgs
    /\ ¬ skipped line
    /\ base_of (strip line) = ""
    /\ "" ∈ pkgs
    /\ requirements_of "==1.0" = {[ "" ]}.
Proof.
  intros Hopen Hline Hstart. exists (requirements_of text).
  split; [by apply read_requirements_ok|].
  assert (marker_here (strip line) = true) as Hm.
  { unfold marker_here. destruct Hstart as [->|[[-> _]|[-> _]]];
      by rewrite ?orb_true_r. }
  assert (base_of (strip line) = "") as Hbase.
  { rewrite base_of_name_part. destruct (strip line) as [|c r] eqn:Ht; [done|].
    rewrite name_part_cons, Hm.
    destruct Hstart as [He|[[Hg1 Hg]|[Hl1 Hl]]].
    - rewrite prefix_cons in He. apply andb_prop in He as [<-%Ascii.eqb_eq _].
      by rewrite !prefix_cons.
    - rewrite Hg. rewrite prefix_cons in Hg1.
      apply andb_prop in Hg1 as [<-%Ascii.eqb_eq _]. by rewrite !prefix_cons.
    - rewrite Hl. rewrite prefix_cons in Hl1.
      apply andb_prop in Hl1 as [<-%Ascii.eqb_eq _]. by rewrite !prefix_cons. }
  pose proof (marker_here_kept _ Hm) as Hk.
  split; [done|]. split; [done|].
  split; [|by vm_compute].
  apply elem_of_requirements_of. exists line. by rewrite Hbase.
Qed.

(** The manifest with the single line [==1.0]. *)
Lemma C10_leading_marker_witness :
  exists pkgs,
    read_requirements (Examples.fs_of [] [("requirements.txt", "==1.0")])
      "requirements.txt" = Ok pkgs
    /\ "" ∈ pkgs.
Proof.
  destruct (C10_leading_marker
    (Examples.fs_of [] [("requirements.txt", "==1.0")])
    "requirements.txt" "==1.0" "==1.0") as (pkgs & Hok & _ & _ & Hin & _).
  - reflexivity.
  - vm_compute. left.
  - left. reflexivity.
  - exists pkgs. split; [exact Hok|exact Hin].
Defined.

End Manifest.

(** ** Properties of the import extractor *)

Module Extract.
Import PyStr Spec PyStrFacts ExtractFacts.

Lemma find_imports_in_file_ok ast_parse (fs : filesystem)
    (filename text : string) (tree : Ast.node) :
  open_read fs filename = Some text ->
  ast_parse text = Some tree ->
  find_imports_in_file ast_parse fs filename = Ok (imports_of tree).
Proof. unfold find_imports_in_file. by intros -> ->. Qed.

(** The alias nodes under a statement contribute nothing. *)
Lemma alias_nodes_contribute (names : list Ast.alias) (item : Ast.node) (x : string) :
  item ∈ Ast.AliasNode <$> names -> ¬ contributes item x.
Proof. intros (a & -> & _)%list_elem_of_fmap. by intros []. Qed.

(** A file of one statement [from m import ...]. *)
Lemma imports_of_single_from (m : string) (names : list Ast.alias) (level : nat) :
  m <> "" ->
  imports_of (Ast.Other [Ast.ImportFrom (Some m) names level])
  = {[ first_segment m ]}.
Proof.
  intros Hm. apply set_eq. intros x.
  rewrite elem_of_imports_of, elem_of_singleton. cbn [Ast.nodes flat_map].
  split.
  - intros (item & Hin & Hc). rewrite app_nil_r in Hin.
    apply elem_of_cons in Hin as [->|Hin]; [done|].
    apply elem_of_cons in Hin as [->|Hin]; [by destruct Hc|].
    by apply alias_nodes_contribute with (x := x) in Hin.
  - intros ->. exists (Ast.ImportFrom (Some m) names level).
    split; [|done]. right. by left.
Qed.

(** A file of one statement [import m] or [import m as y]. *)
Lemma imports_of_single_import (a : Ast.alias) :
  imports_of (Ast.Other [Ast.Import [a]]) = {[ first_segment (Ast.name a) ]}.
Proof.
  apply set_eq. intros x.
  rewrite elem_of_imports_of, elem_of_singleton. cbn [Ast.nodes flat_map].
  split.
  - intros (item & Hin & Hc). rewrite app_nil_r in Hin.
    apply elem_of_cons in Hin as [->|Hin]; [done|].
    apply elem_of_cons in Hin as [->|Hin].
    + destruct Hc as (b & ->%list_elem_of_singleton & ->). done.
    + by apply alias_nodes_contribute with (x := x) in Hin.
  - intros ->. exists (Ast.Import [a]).
    split; [right; by left|]. exists a. split; [by left|done].
Qed.

(** C2: in a file that parses, each statement [from m import ...] with a
    module path puts the first segment of [m], the text before its first
    dot, in the result; each element of the result is the first segment of
    a module path named by some node, never an imported member as such; a
    file of that one statement gives exactly that one name, whatever the
    members are. *)
Theorem C2_import_from ast_parse (fs : filesystem) (filename text : string)
    (tree : Ast.node) (m : string) (names : list Ast.alias) (level : nat) :
  open_read fs filename = Some text ->
  ast_parse text = Some tree ->
  Ast.ImportFrom (Some m) names level ∈ Ast.nodes tree ->
  m <> "" ->
  exists found, find_imports_in_file ast_parse fs filename = Ok found
    /\ first_segment m ∈ found
    /\ root_level (first_segment m)
    /\ (forall x, x ∈ found ->
          exists item, item ∈ Ast.nodes tree /\ contributes item x)
    /\ (forall members lvl,
          imports_of (Ast.Other [Ast.ImportFrom (Some m) members lvl])
          = {[ first_segment m ]})
    /\ imports_of Examples.from_foo_bar = {[ "foo" ]}.
Proof.
  intros Hopen Hparse Hin Hm. exists (imports_of tree).
  split; [by apply find_imports_in_file_ok with text|].
  split.
  { apply elem_of_imports_of. by exists (Ast.ImportFrom (Some m) names level). }
  split; [apply first_segment_root_level|].
  split; [intros x; apply elem_of_imports_of|].
  split; [intros; by apply imports_of_single_from|].
  by vm_compute.
Qed.

(** The file [from foo.bar import baz]. *)
Lemma C2_import_from_witness :
  exists found,
    find_imports_in_file
      (Examples.parser_of [("from foo.bar import baz", Examples.from_foo_bar)])
      (Examples.fs_of [] [("m.py", "from foo.bar import baz")]) "m.py"
    = Ok found
    /\ "foo" ∈ found.
Proof.
  destruct (C2_import_from
    (Examples.parser_of [("from foo.bar import baz", Examples.from_foo_bar)])
    (Examples.fs_of [] [("m.py", "from foo.bar import baz")]) "m.py"
    "from foo.bar import baz" Examples.from_foo_bar "foo.bar"
    [Examples.alias_of "baz"] 0) as (found & Hok & Hin & _).
  - reflexivity.
  - reflexivity.
  - vm_compute. right. left.
  - discriminate.
  - exists found. split; [exact Hok|exact Hin].
Defined.

Lemma first_segment_cut (pre rest : string) :
  dotless pre -> first_segment (pre +:+ "." +:+ rest) = pre.
Proof.
  unfold first_segment. induction pre as [|c pre IH]; intros Hd.
  - change ("" +:+ "." +:+ rest) with (String "." rest).
    by rewrite before_cons, prefix_cons, Markers.prefix_empty.
  - destruct Hd as [Hc Hd].
    change (String c pre +:+ "." +:+ rest) with (String c (pre +:+ "." +:+ rest)).
    rewrite before_cons, prefix_cons.
    apply Ascii.eqb_neq in Hc. rewrite Ascii.eqb_sym in Hc. rewrite Hc.
    cbn [andb]. by rewrite IH.
Qed.

Lemma first_segment_dotless (s : string) : dotless s -> first_segment s = s.
Proof.
  unfold first_segment. induction s as [|c r IH]; intros Hd; [apply before_nil|].
  destruct Hd as [Hc Hd]. rewrite before_cons, prefix_cons.
  apply Ascii.eqb_neq in Hc. rewrite Ascii.eqb_sym in Hc. rewrite Hc.
  cbn [andb]. by rewrite IH.
Qed.

(** C3: in a file that parses, each name of a statement [import m] or
    [import m as y] puts the first segment of [m] in the result, whatever
    the alias is: all of [m] when it has no dot, and otherwise the text
    [pre] before its first dot, when [m] reads [pre.rest].  The file with
    [import os] and [import sys as s] gives [os] and [sys]; the file with
    [import os.path] and [import xml.etree.ElementTree as ET] gives [os]
    and [xml]. *)
Theorem C3_direct_import ast_parse (fs : filesystem) (filename text : string)
    (tree : Ast.node) (names : list Ast.alias) (a : Ast.alias) :
  open_read fs filename = Some text ->
  ast_parse text = Some tree ->
  Ast.Import names ∈ Ast.nodes tree ->
  a ∈ names ->
  exists found, find_imports_in_file ast_parse fs filename = Ok found
    /\ first_segment (Ast.name a) ∈ found
    /\ root_level (first_segment (Ast.name a))
    /\ (forall x, x ∈ found ->
          exists item, item ∈ Ast.nodes tree /\ contributes item x)
    /\ (forall y,
          imports_of (Ast.Other
            [Ast.Import [{| Ast.name := Ast.name a; Ast.asname := y |}]])
          = {[ first_segment (Ast.name a) ]})
    /\ (forall pre rest, Ast.name a = pre +:+ "." +:+ rest -> dotless pre ->
          first_segment (Ast.name a) = pre /\ pre ∈ found)
    /\ (dotless (Ast.name a) ->
          first_segment (Ast.name a) = Ast.name a /\ Ast.name a ∈ found)
    /\ imports_of Examples.import_os_sys = {[ "os"; "sys" ]}
    /\ imports_of Examples.import_dotted = {[ "os"; "xml" ]}.
Proof.
  intros Hopen Hparse Hin Ha. exists (imports_of tree).
  split; [by apply find_imports_in_file_ok with text|].
  assert (first_segment (Ast.name a) ∈ imports_of tree) as Hfound.
  { apply elem_of_imports_of. exists (Ast.Import names). split; [done|].
    by exists a. }
  split; [done|].
  split; [apply first_segment_root_level|].
  split; [intros x; apply elem_of_imports_of|].
  split.
  { intros y.
    apply (imports_of_single_import {| Ast.name := Ast.name a; Ast.asname := y |}). }
  split.
  { intros pre rest Hname Hpre.
    assert (first_segment (Ast.name a) = pre) as Hcut
      by (rewrite Hname; by apply first_segment_cut).
    split; [done|]. by rewrite <- Hcut. }
  split.
  { intros Hd. pose proof (first_segment_dotless _ Hd) as Hcut.
    split; [done|]. by rewrite <- Hcut. }
  split; by vm_compute.
Qed.

(** The file with [import os.path] and
    [import xml.etree.ElementTree as ET]. *)
Lemma C3_direct_import_witness :
  exists found,
    find_imports_in_file
      (Examples.parser_of [("import os.path
import xml.etree.ElementTree as ET", Examples.import_dotted)])
      (Examples.fs_of [] [("m.py", "import os.path
import xml.etree.ElementTree as ET")]) "m.py"
    = Ok found
    /\ "xml" ∈ found.
Proof.
  destruct (C3_direct_import
    (Examples.parser_of [("import os.path
import xml.etree.ElementTree as ET", Examples.import_dotted)])
    (Examples.fs_of [] [("m.py", "import os.path
import xml.etree.ElementTree as ET")]) "m.py" "import os.path
import xml.etree.ElementTree as ET" Examples.import_dotted
    [{| Ast.name := "xml.etree.ElementTree"; Ast.asname := Some "ET" |}]
    {| Ast.name := "xml.etree.ElementTree"; Ast.asname := Some "ET" |})
    as (found & Hok & _ & _ & _ & _ & Hcut & _).
  - reflexivity.
  - reflexivity.
  - vm_compute. do 3 right. left.
  - left.
  - exists found. split; [exact Hok|].
    destruct (Hcut "xml" "etree.ElementTree") as [_ Hin].
    + reflexivity.
    + repeat split; discriminate.
    + exact Hin.
Defined.

Lemma node_ind_nested (P : Ast.node -> Prop) :
  (forall names, P (Ast.Import names)) ->
  (forall m names level, P (Ast.ImportFrom m names level)) ->
  (forall a, P (Ast.AliasNode a)) ->
  (forall children, Forall P children -> P (Ast.Other children)) ->
  forall n, P n.
Proof.
  intros HI HF HA HO. fix IH 1.
  intros [names|m names level|a|children]; [apply HI|apply HF|apply HA|].
  apply HO. induction children as [|c cs IHcs]; constructor; [apply IH|apply IHcs].
Qed.

Lemma is_relative_spec (stmt : Ast.node) :
  is_relative stmt = true <-> relative_import stmt.
Proof.
  split.
  - destruct stmt as [|[m|] names level| |]; try done. by exists names, level.
  - by intros (names & level & ->).
Qed.

(** Neither a relative import nor the alias nodes under it contribute. *)
Lemma relative_no_contribution (stmt item : Ast.node) (x : string) :
  is_relative stmt = true -> item ∈ Ast.nodes stmt -> ¬ contributes item x.
Proof.
  intros (names & level & ->)%is_relative_spec Hin. cbn [Ast.nodes] in Hin.
  apply elem_of_cons in Hin as [->|Hin]; [by intros []|].
  by apply (alias_nodes_contribute names).
Qed.

Lemma contributes_counted (item : Ast.node) (x : string) :
  contributes item x -> counted item.
Proof. destruct item as [|[m|] ? ?| |]; try done; by split. Qed.

Lemma contributes_without_relative (n : Ast.node) (x : string) :
  (exists item, item ∈ Ast.nodes (without_relative n) /\ contributes item x)
  <-> exists item, item ∈ Ast.nodes n /\ contributes item x.
Proof.
  induction n as [names|m names level|a|children IH] using node_ind_nested;
    try done.
  rewrite Forall_forall in IH. cbn [without_relative Ast.nodes]. split.
  - intros (item & [->|Hin]%elem_of_cons & Hc); [done|].
    apply elem_of_flat_map in Hin as (c' & Hc' & Hin).
    apply elem_of_flat_map in Hc' as (c & Hcs & Hc').
    destruct (is_relative c) eqn:Hrel; [by apply elem_of_nil in Hc'|].
    apply list_elem_of_singleton in Hc' as ->.
    destruct (proj1 (IH c Hcs)) as (item' & Hin' & Hc'); [by exists item|].
    exists item'. split; [|done]. right. apply elem_of_flat_map. by exists c.
  - intros (item & [->|Hin]%elem_of_cons & Hc); [done|].
    apply elem_of_flat_map in Hin as (c & Hcs & Hin).
    destruct (is_relative c) eqn:Hrel.
    { by destruct (relative_no_contribution c item x Hrel Hin). }
    destruct (proj2 (IH c Hcs)) as (item' & Hin' & Hc'); [by exists item|].
    exists item'. split; [|done]. right.
    apply elem_of_flat_map. exists (without_relative c). split; [|done].
    apply elem_of_flat_map. exists c. split; [done|]. rewrite Hrel. by left.
Qed.

(** Taking the relative imports out of a tree leaves its import set. *)
Lemma imports_of_without_relative (tree : Ast.node) :
  imports_of (without_relative tree) = imports_of tree.
Proof.
  apply set_eq. intros x. rewrite !elem_of_imports_of.
  apply contributes_without_relative.
Qed.

(** C4: in a file that parses, the statements [from . import ...], without
    module path, add nothing, wherever they stand and whatever else the
    file holds: the result is that of the file with these statements taken
    out, and each of its elements comes from a node that is neither such a
    statement nor one of its aliases.  A file made of such statements only
    gives the empty set, as does [from . import x]; with [import os] before
    it the file gives [os] alone. *)
Theorem C4_relative_import ast_parse (fs : filesystem) (filename text : string)
    (tree : Ast.node) :
  open_read fs filename = Some text ->
  ast_parse text = Some tree ->
  exists found, find_imports_in_file ast_parse fs filename = Ok found
    /\ found = imports_of (without_relative tree)
    /\ (forall x, x ∈ found ->
          exists item, item ∈ Ast.nodes tree /\ counted item /\ contributes item x)
    /\ (forall body, tree = Ast.Other body -> Forall relative_import body ->
          found = ∅)
    /\ (forall acc names level,
          visit acc (Ast.ImportFrom None names level) = acc)
    /\ imports_of Examples.from_dot = ∅
    /\ imports_of Examples.mixed_relative = {[ "os"; "sys" ]}.
Proof.
  intros Hopen Hparse. exists (imports_of tree).
  split; [by apply find_imports_in_file_ok with text|].
  split; [by rewrite imports_of_without_relative|].
  split.
  { intros x (item & Hin & Hc)%elem_of_imports_of. exists item.
    split; [done|]. split; [by apply contributes_counted with x|done]. }
  split.
  { intros body -> Hbody. apply set_eq. intros x. rewrite elem_of_imports_of.
    split; [|by intros ?%elem_of_empty].
    intros (item & Hin & Hc). cbn [Ast.nodes] in Hin.
    apply elem_of_cons in Hin as [->|Hin]; [done|].
    apply elem_of_flat_map in Hin as (stmt & Hstmt & Hin).
    rewrite Forall_forall in Hbody.
    pose proof (proj2 (is_relative_spec stmt) (Hbody _ Hstmt)) as Hrel.
    by destruct (relative_no_contribution stmt item x Hrel Hin). }
  split; [done|]. split; by vm_compute.
Qed.

(** The file with [import os], [from . import x] and a function that holds
    [from .. import y] and [import sys]. *)
Lemma C4_relative_import_witness :
  exists found,
    find_imports_in_file
      (Examples.parser_of [("import os
from . import x
def f():
    from .. import y
    import sys", Examples.mixed_relative)])
      (Examples.fs_of [] [("m.py", "import os
from . import x
def f():
    from .. import y
    import sys")]) "m.py"
    = Ok found
    /\ found = {[ "os"; "sys" ]}.
Proof.
  destruct (C4_relative_import
    (Examples.parser_of [("import os
from . import x
def f():
    from .. import y
    import sys", Examples.mixed_relative)])
    (Examples.fs_of [] [("m.py", "import os
from . import x
def f():
    from .. import y
    import sys")]) "m.py" "import os
from . import x
def f():
    from .. import y
    import sys" Examples.mixed_relative) as (found & Hok & Heq & _).
  - reflexivity.
  - reflexivity.
  - exists found. split; [exact Hok|]. rewrite Heq. vm_compute. reflexivity.
Defined.

End Extract.

(** ** Properties of the source scanner *)

Module Scan.
Import PyStr Spec PyStrFacts ExtractFacts ScanFacts ManifestFacts.

Lemma find_imports_in_file_inv ast_parse (fs : filesystem) (p : string)
    (found : gset string) :
  find_imports_in_file ast_parse fs p = Ok found ->
  exists text tree, open_read fs p = Some text /\ ast_parse text = Some tree
                    /\ found = imports_of tree.
Proof.
  unfold find_imports_in_file. destruct (open_read fs p) as [text|]; [|done].
  destruct (ast_parse text) as [tree|] eqn:Hp; [|done].
  intros [= <-]. by exists text, tree.
Qed.

Lemma find_imports_in_file_raise ast_parse (fs : filesystem) (p : string) (e : exn) :
  find_imports_in_file ast_parse fs p = Raise e ->
  open_read fs p = None /\ e = IOError p
  \/ (exists text, open_read fs p = Some text /\ ast_parse text = None)
     /\ e = SyntaxError p.
Proof.
  unfold find_imports_in_file. destruct (open_read fs p) as [text|].
  - destruct (ast_parse text) eqn:Hp; [done|]. intros [= <-]. right.
    split; [by exists text|done].
  - intros [= <-]. by left.
Qed.

Lemma elem_of_py_files (fs : filesystem) (src_dir root file : string)
    (dirs files : list string) :
  (root, dirs, files) ∈ os_walk fs src_dir ->
  file ∈ files ->
  endswith ".py" file = true ->
  os_path_join root file ∈ py_files fs src_dir.
Proof.
  intros Hw Hf Hpy. unfold py_files. apply elem_of_flat_map.
  exists (root, dirs, files). split; [done|].
  apply list_elem_of_fmap_2. by apply list_elem_of_filter.
Qed.






(** C7 (as stated, refuted): a tree with an unreadable [a.py] listed before
    a readable [b.py] whose content does not parse: the scan fails at
    [a.py] with the read error, not with the parse error. *)
Lemma C7_counterexample :
  os_walk Examples.fs_unreadable "." = [(".", [], ["a.py"; "b.py"])]
  /\ endswith ".py" "b.py" = true
  /\ open_read Examples.fs_unreadable (os_path_join "." "b.py") = Some "x = ("
  /\ Examples.parser_of [] "x = (" = None
  /\ scan_all_py_files (Examples.parser_of []) Examples.fs_unreadable "."
     = Raise (IOError "./a.py").
Proof. repeat split. Qed.

(** C7 (amended): when the walk lists a [.py] file whose content does not
    parse, the scan returns no set: it raises what the first failing file of
    the walk raises, which is a parse error when every listed [.py] file can
    be read; the script then ends having printed nothing, so without its
    two discrepancy lines. *)
Theorem C7_invalid_file_aborts ast_parse (fs : filesystem)
    (src_dir root file text : string) (dirs files : list string) :
  (root, dirs, files) ∈ os_walk fs src_dir ->
  file ∈ files ->
  endswith ".py" file = true ->
  open_read fs (os_path_join root file) = Some text ->
  ast_parse text = None ->
  exists e, scan_all_py_files ast_parse fs src_dir = Raise e
    /\ (exists pre p post, py_files fs src_dir = pre ++ p :: post
          /\ (forall q, q ∈ pre ->
                exists f, find_imports_in_file ast_parse fs q = Ok f)
          /\ find_imports_in_file ast_parse fs p = Raise e)
    /\ ((forall p, p ∈ py_files fs src_dir -> open_read fs p <> None) ->
        exists p, e = SyntaxError p)
    /\ (src_dir = "." -> main ast_parse fs = ([], Some e)).
Proof.
  intros Hw Hf Hpy Hopen Hparse.
  pose proof (elem_of_py_files _ _ _ _ _ _ Hw Hf Hpy) as Hin.
  destruct (scan_all_py_files ast_parse fs src_dir) as [s|e] eqn:Hscan.
  - exfalso. rewrite scan_py_files in Hscan.
    apply for_each_scan_ok in Hscan as [Hall _].
    destruct (Hall _ Hin) as [f Hfile]. unfold find_imports_in_file in Hfile.
    by rewrite Hopen, Hparse in Hfile.
  - exists e. split; [done|].
    pose proof Hscan as Hfirst. rewrite scan_py_files in Hfirst.
    apply for_each_scan_raise in Hfirst as (pre & p & post & Heq & Hpre & Hp).
    split; [by exists pre, p, post|]. split.
    + intros Hreadable.
      apply find_imports_in_file_raise in Hp as [[Hnone _]|[_ ->]]; [|by exists p].
      exfalso. apply (Hreadable p); [|done].
      rewrite Heq, elem_of_app. right. by left.
    + intros ->. unfold main. by rewrite Hscan.
Qed.

(** A tree whose only source file does not parse. *)
Lemma C7_invalid_file_aborts_witness :
  main (Examples.parser_of [])
       (Examples.fs_of [(".", [], ["b.py"])] [("./b.py", "x = (")])
  = ([], Some (SyntaxError "./b.py")).
Proof.
  destruct (C7_invalid_file_aborts (Examples.parser_of [])
    (Examples.fs_of [(".", [], ["b.py"])] [("./b.py", "x = (")])
    "." "." "b.py" "x = (" [] ["b.py"]) as (e & Hscan & _ & _ & Hmain).
  - left.
  - left.
  - reflexivity.
  - reflexivity.
  - reflexivity.
  - rewrite (Hmain eq_refl). f_equal. f_equal.
    vm_compute in Hscan. by injection Hscan.
Defined.

(** C9: the scan is a function of what the walk lists and of what the files
    contain: over two walks of the same tree, listing its directories and
    files in any order, with the same file contents, the scan returns the
    same set or fails in both. *)
Theorem C9_order_independent ast_parse (fs1 fs2 : filesystem) (src_dir : string) :
  (forall p, open_read fs1 p = open_read fs2 p) ->
  same_tree (os_walk fs1 src_dir) (os_walk fs2 src_dir) ->
  forall imports,
    scan_all_py_files ast_parse fs1 src_dir = Ok imports
    <-> scan_all_py_files ast_parse fs2 src_dir = Ok imports.
Proof.
  assert (forall fs1 fs2 : filesystem,
    (forall p, open_read fs1 p = open_read fs2 p) ->
    py_files fs1 src_dir ≡ₚ py_files fs2 src_dir ->
    forall imports,
      scan_all_py_files ast_parse fs1 src_dir = Ok imports ->
      scan_all_py_files ast_parse fs2 src_dir = Ok imports) as Hone.
  { clear. intros fs1 fs2 Hread Hperm imports. rewrite !scan_py_files. intros H1.
    pose proof (for_each_scan_ok _ _ _ _ _ H1) as [Hall1 Hin1].
    destruct (for_each_scan_all_ok ast_parse fs2 (py_files fs2 src_dir) ∅)
      as [s2 H2].
    { intros p Hp. rewrite <- Hperm in Hp. destruct (Hall1 _ Hp) as [f Hf].
      exists f. by rewrite <- (find_imports_in_file_ext _ fs1 fs2). }
    rewrite H2. f_equal.
    pose proof (for_each_scan_ok _ _ _ _ _ H2) as [_ Hin2].
    apply set_eq. intros x. rewrite Hin1, Hin2.
    split; (intros [?|(p & f & Hp & Hf & Hx)]; [by left|]);
      right; exists p, f.
    - rewrite Hperm. by rewrite (find_imports_in_file_ext _ fs1 fs2).
    - rewrite <- Hperm. by rewrite <- (find_imports_in_file_ext _ fs1 fs2). }
  intros Hread Htree imports.
  pose proof (py_files_same_tree _ _ _ Htree) as Hperm. split.
  - by apply Hone.
  - apply Hone; [intros p; by rewrite Hread|by symmetry].
Qed.

(** Two listings of one tree: a root with two files and two directories. *)
Lemma C9_order_independent_witness :
  scan_all_py_files Examples.parse_os_sys Examples.fs_listing1 "."
  = Ok {[ "os"; "sys" ]}
  <-> scan_all_py_files Examples.parse_os_sys Examples.fs_listing2 "."
      = Ok {[ "os"; "sys" ]}.
Proof.
  apply (C9_order_independent Examples.parse_os_sys
           Examples.fs_listing1 Examples.fs_listing2 ".").
  - intros p. reflexivity.
  - exists [(".", ["x"; "y"], ["a.py"; "notes.txt"]); ("./y", [], []);
            ("./x", [], ["c.py"])].
    split.
    + cbn. apply perm_skip, perm_swap.
    + repeat constructor; cbn; try reflexivity; apply perm_swap.
Defined.

End Scan.

(** ** Properties of the reporter *)

Module Report.
Import Spec.

Lemma sorted_Permutation (s : gset string) : sorted s ≡ₚ elements s.
Proof. apply merge_sort_Permutation. Qed.

Lemma list_to_set_sorted (s : gset string) : list_to_set (sorted s) = s.
Proof. rewrite sorted_Permutation. apply list_to_set_elements_L. Qed.

Lemma NoDup_sorted (s : gset string) : NoDup (sorted s).
Proof. rewrite sorted_Permutation. apply NoDup_elements. Qed.

Lemma StronglySorted_sorted (s : gset string) :
  StronglySorted String.le (sorted s).
Proof. apply StronglySorted_merge_sort; apply _. Qed.

(** C5: when both readers return, the script prints the sorted import set,
    the sorted declared set, then the members of [imports ∖ reqs] and of
    [reqs ∖ imports], each listed once in ascending order; for the sets
    [{a, b, c}] and [{b, c, d}] these are [a] and [d]. *)
Theorem C5_set_differences ast_parse (fs : filesystem) (imports reqs : gset string) :
  scan_all_py_files ast_parse fs "." = Ok imports ->
  read_requirements fs "requirements.txt" = Ok reqs ->
  main ast_parse fs
  = ([print "Imports found in codebase:" (sorted imports);
      print "Packages in requirements.txt:" (sorted reqs);
      print "Possibly missing in requirements.txt (used in code, not listed):"
            (missing imports reqs);
      print "Possibly unused in codebase (listed, but not imported directly):"
            (unused imports reqs)], None)
  /\ list_to_set (missing imports reqs) = imports ∖ reqs
  /\ list_to_set (unused imports reqs) = reqs ∖ imports
  /\ NoDup (missing imports reqs) /\ NoDup (unused imports reqs)
  /\ StronglySorted String.le (missing imports reqs)
  /\ StronglySorted String.le (unused imports reqs)
  /\ missing {[ "a"; "b"; "c" ]} {[ "b"; "c"; "d" ]} = ["a"]
  /\ unused {[ "a"; "b"; "c" ]} {[ "b"; "c"; "d" ]} = ["d"].
Proof.
  intros Hscan Hread. split; [unfold main; by rewrite Hscan, Hread|].
  unfold missing, unused.
  repeat split; auto using list_to_set_sorted, NoDup_sorted, StronglySorted_sorted.
Qed.

(** One source file importing [requests] and [flask], both declared: no
    discrepancy is reported. *)
Lemma C5_set_differences_witness :
  main
    (Examples.parser_of [("import requests
from flask import Flask", Examples.import_requests_flask)])
    (Examples.fs_of [(".", [], ["app.py"; "requirements.txt"])]
       [("./app.py", "import requests
from flask import Flask");
        ("requirements.txt", "Flask==2.0
requests==2.31")])
  = ([("Imports found in codebase:", ["flask"; "requests"]);
      ("Packages in requirements.txt:", ["flask"; "requests"]);
      ("Possibly missing in requirements.txt (used in code, not listed):", []);
      ("Possibly unused in codebase (listed, but not imported directly):", [])],
     None).
Proof.
  destruct (C5_set_differences
    (Examples.parser_of [("import requests
from flask import Flask", Examples.import_requests_flask)])
    (Examples.fs_of [(".", [], ["app.py"; "requirements.txt"])]
       [("./app.py", "import requests
from flask import Flask");
        ("requirements.txt", "Flask==2.0
requests==2.31")])
    {[ "requests"; "flask" ]} {[ "flask"; "requests" ]}) as [Hmain _].
  - vm_compute. reflexivity.
  - vm_compute. reflexivity.
  - rewrite Hmain. vm_compute. reflexivity.
Defined.

End Report.

(** ** Further properties of the scanner *)

Module ScanMore.
Import PyStr Spec PyStrFacts ExtractFacts ScanFacts Scan.

Lemma for_each_scan_ext ast_parse (fs1 fs2 : filesystem) (ps : list string)
    (acc : gset string) :
  (forall p, p ∈ ps -> open_read fs1 p = open_read fs2 p) ->
  for_each ps (fun acc p => found ← find_imports_in_file ast_parse fs1 p;
                            Ok (acc ∪ found)) acc
  = for_each ps (fun acc p => found ← find_imports_in_file ast_parse fs2 p;
                              Ok (acc ∪ found)) acc.
Proof.
  revert acc. induction ps as [|p ps IH]; intros acc Hread; [done|].
  cbn [for_each].
  rewrite (find_imports_in_file_ext ast_parse fs1 fs2 p) by (apply Hread; by left).
  destruct (find_imports_in_file ast_parse fs2 p) as [f|e]; [|done]. cbn.
  apply IH. intros q ?. apply Hread. by right.
Qed.

(** X1: the scan opens the listed [.py] files and nothing else: two file
    systems with the same walk that agree on the content of those files
    give the same outcome, set or exception, whatever their other files
    hold. *)
Theorem scan_reads_py_files_only ast_parse (fs1 fs2 : filesystem) (src_dir : string) :
  os_walk fs1 src_dir = os_walk fs2 src_dir ->
  (forall p, p ∈ py_files fs1 src_dir -> open_read fs1 p = open_read fs2 p) ->
  scan_all_py_files ast_parse fs1 src_dir = scan_all_py_files ast_parse fs2 src_dir.
Proof.
  intros Hwalk Hread. rewrite !scan_py_files.
  assert (py_files fs2 src_dir = py_files fs1 src_dir) as ->.
  { unfold py_files. by rewrite Hwalk. }
  by apply for_each_scan_ext.
Qed.

Lemma scan_reads_py_files_only_witness :
  scan_all_py_files Examples.parse_os_sys Examples.fs_listing1 "."
  = scan_all_py_files Examples.parse_os_sys Examples.fs_notes "."
  /\ open_read Examples.fs_listing1 "./notes.txt"
     <> open_read Examples.fs_notes "./notes.txt".
Proof.
  split; [|discriminate].
  apply (scan_reads_py_files_only Examples.parse_os_sys
           Examples.fs_listing1 Examples.fs_notes ".").
  - reflexivity.
  - intros p Hp. vm_compute in Hp.
    repeat (apply elem_of_cons in Hp as [->|Hp]); try reflexivity.
    by apply elem_of_nil in Hp.
Defined.

(** X2: the scan returns a set exactly when every listed [.py] file can be
    read and parses; the set is then the union of the import sets of these
    files, so it is empty when no [.py] file is listed. *)
Theorem scan_ok_union ast_parse (fs : filesystem) (src_dir : string) :
  ((exists imports, scan_all_py_files ast_parse fs src_dir = Ok imports)
   <-> forall p, p ∈ py_files fs src_dir ->
         exists text tree, open_read fs p = Some text /\ ast_parse text = Some tree)
  /\ (forall imports, scan_all_py_files ast_parse fs src_dir = Ok imports ->
        forall x, x ∈ imports <->
          exists p text tree, p ∈ py_files fs src_dir
            /\ open_read fs p = Some text /\ ast_parse text = Some tree
            /\ x ∈ imports_of tree)
  /\ (py_files fs src_dir = [] -> scan_all_py_files ast_parse fs src_dir = Ok ∅).
Proof.
  rewrite scan_py_files. split; [split|split].
  - intros [imports [Hall _]%for_each_scan_ok] p Hp.
    destruct (Hall p Hp) as [f (text & tree & ? & ? & _)%find_imports_in_file_inv].
    by exists text, tree.
  - intros Hall. apply for_each_scan_all_ok. intros p Hp.
    destruct (Hall p Hp) as (text & tree & Ho & Ht).
    exists (imports_of tree). by apply Extract.find_imports_in_file_ok with text.
  - intros imports [_ Hin]%for_each_scan_ok x. rewrite Hin. split.
    + intros [[]%elem_of_empty|(p & f & Hp & Hf & Hx)].
      apply find_imports_in_file_inv in Hf as (text & tree & ? & ? & ->).
      by exists p, text, tree.
    + intros (p & text & tree & Hp & Ho & Ht & Hx). right.
      exists p, (imports_of tree). split; [done|]. split; [|done].
      by apply Extract.find_imports_in_file_ok with text.
  - by intros ->.
Qed.

(** X3: an exception of the scan names a listed [.py] file: a read error
    names a file that cannot be read, a parse error a file that was read
    and does not parse, and every file listed before it was fine. *)
Theorem scan_raise_names_file ast_parse (fs : filesystem) (src_dir : string) (e : exn) :
  scan_all_py_files ast_parse fs src_dir = Raise e ->
  exists pre p post, py_files fs src_dir = pre ++ p :: post
    /\ (forall q, q ∈ pre ->
          exists text tree, open_read fs q = Some text /\ ast_parse text = Some tree)
    /\ (e = IOError p /\ open_read fs p = None
        \/ e = SyntaxError p
           /\ exists text, open_read fs p = Some text /\ ast_parse text = None).
Proof.
  rewrite scan_py_files.
  intros (pre & p & post & Heq & Hpre & Hp)%for_each_scan_raise.
  exists pre, p, post. split; [done|]. split.
  - intros q Hq.
    destruct (Hpre q Hq) as [f (text & tree & ? & ? & _)%find_imports_in_file_inv].
    by exists text, tree.
  - apply find_imports_in_file_raise in Hp as [[? ->]|[? ->]]; [by left|by right].
Qed.

Lemma scan_raise_names_file_witness :
  exists pre p post, py_files Examples.fs_unreadable "." = pre ++ p :: post
    /\ p = "./a.py".
Proof.
  destruct (scan_raise_names_file (Examples.parser_of []) Examples.fs_unreadable
              "." (IOError "./a.py") eq_refl)
    as (pre & p & post & Heq & _ & [[He _]|[He _]]).
  - exists pre, p, post. split; [exact Heq|]. by injection He.
  - discriminate He.
Defined.

(** X4: a listed [.py] file that cannot be read ends the scan with an
    exception, and the script then ends with it without printing a line. *)
Theorem unreadable_file_aborts ast_parse (fs : filesystem)
    (root file : string) (dirs files : list string) :
  (root, dirs, files) ∈ os_walk fs "." ->
  file ∈ files ->
  endswith ".py" file = true ->
  open_read fs (os_path_join root file) = None ->
  exists e, scan_all_py_files ast_parse fs "." = Raise e
    /\ main ast_parse fs = ([], Some e).
Proof.
  intros Hw Hf Hpy Hopen.
  pose proof (elem_of_py_files _ _ _ _ _ _ Hw Hf Hpy) as Hin.
  destruct (scan_all_py_files ast_parse fs ".") as [s|e] eqn:Hscan.
  - exfalso. rewrite scan_py_files in Hscan.
    apply for_each_scan_ok in Hscan as [Hall _].
    destruct (Hall _ Hin) as [f Hfile]. unfold find_imports_in_file in Hfile.
    by rewrite Hopen in Hfile.
  - exists e. split; [done|]. unfold main. by rewrite Hscan.
Qed.

Lemma unreadable_file_aborts_witness :
  main (Examples.parser_of []) Examples.fs_unreadable
  = ([], Some (IOError "./a.py")).
Proof.
  destruct (unreadable_file_aborts (Examples.parser_of []) Examples.fs_unreadable
              "." "a.py" [] ["a.py"; "b.py"]) as (e & Hscan & Hmain).
  - left.
  - left.
  - reflexivity.
  - reflexivity.
  - rewrite Hmain. f_equal. f_equal. vm_compute in Hscan. by injection Hscan.
Defined.

(** X5: scanning more files never loses a name: when the [.py] files of one
    tree are among those of another with the same contents, and both scans
    return, the first set is included in the second. *)
Theorem scan_monotone ast_parse (fs1 fs2 : filesystem) (src1 src2 : string)
    (imports1 imports2 : gset string) :
  (forall p, p ∈ py_files fs1 src1 ->
     p ∈ py_files fs2 src2 /\ open_read fs1 p = open_read fs2 p) ->
  scan_all_py_files ast_parse fs1 src1 = Ok imports1 ->
  scan_all_py_files ast_parse fs2 src2 = Ok imports2 ->
  imports1 ⊆ imports2.
Proof.
  rewrite !scan_py_files.
  intros Hsub [_ Hin1]%for_each_scan_ok [_ Hin2]%for_each_scan_ok x.
  rewrite Hin1, Hin2.
  intros [[]%elem_of_empty|(p & f & Hp & Hf & Hx)]. right.
  destruct (Hsub p Hp) as [Hp2 Hread]. exists p, f. split; [done|].
  split; [|done]. by rewrite <- (find_imports_in_file_ext _ fs1 fs2).
Qed.

Lemma scan_monotone_witness :
  ({[ "os" ]} : gset string) ⊆ {[ "os"; "sys" ]}.
Proof.
  apply (scan_monotone Examples.parse_os_sys Examples.fs_root_only
           Examples.fs_listing1 "." ".").
  - intros p Hp. vm_compute in Hp.
    apply elem_of_cons in Hp as [->|Hp]; [|by apply elem_of_nil in Hp].
    split; [|reflexivity]. vm_compute. left.
  - vm_compute. reflexivity.
  - vm_compute. reflexivity.
Defined.

End ScanMore.

(** ** Further properties of the manifest reader *)

Module ManifestMore.
Import PyStr Spec PyStrFacts Markers MarkersCut LineFacts ManifestFacts.

Lemma lower_char_idem (c : ascii) : lower_char (lower_char c) = lower_char c.
Proof. destruct c as [[] [] [] [] [] [] [] []]; reflexivity. Qed.

Lemma lower_idem (s : string) : lower (lower s) = lower s.
Proof.
  induction s as [|c r IH]; [done|]. cbn [lower]. by rewrite lower_char_idem, IH.
Qed.

(** X6: every name of the declared set is in lower case: lower-casing it
    again changes nothing. *)
Theorem declared_names_lower_case (fs : filesystem) (reqfile : string)
    (reqs : gset string) (x : string) :
  read_requirements fs reqfile = Ok reqs ->
  x ∈ reqs ->
  lower x = x.
Proof.
  unfold read_requirements. destruct (open_read fs reqfile) as [text|]; [|done].
  intros [= <-] (line & _ & _ & ->)%elem_of_requirements_of. apply lower_idem.
Qed.

Lemma declared_names_lower_case_witness : lower "pil" = "pil".
Proof.
  apply (declared_names_lower_case Examples.fs_pil "requirements.txt" {[ "pil" ]}).
  - vm_compute. reflexivity.
  - vm_compute. reflexivity.
Defined.

Lemma prefix_refl (s : string) : String.prefix s s = true.
Proof.
  induction s as [|c r IH]; [done|]. by rewrite prefix_cons, Ascii.eqb_refl.
Qed.

Lemma prefix_take_self (k : nat) (s : string) : String.prefix (take k s) s = true.
Proof.
  revert s. induction k as [|k IH]; intros [|c r]; try done.
  cbn [take]. by rewrite prefix_cons, Ascii.eqb_refl, IH.
Qed.

(** X7: the name kept from a manifest line is a prefix of the trimmed line:
    the cut only drops text from the first marker on, and keeps all of a
    line that has no marker. *)
Theorem base_of_prefix (line : string) :
  String.prefix (base_of line) line = true
  /\ (first_marker line = None -> base_of line = line).
Proof.
  rewrite base_of_name_part. unfold name_part, cut_point.
  destruct (first_marker line) as [k|]; split; try done.
  - apply prefix_take_self.
  - apply prefix_refl.
Qed.

(** X8: cutting is idempotent: the name kept from a line has no marker
    left, so cutting it again gives it back. *)
Theorem base_of_idempotent (line : string) : base_of (base_of line) = base_of line.
Proof.
  destruct (base_of_marker_free line) as (H1 & H2 & H3).
  rewrite (base_of_name_part (base_of line)). unfold name_part, cut_point, first_marker.
  by rewrite H1, H2, H3.
Qed.

Lemma marker_here_lower (s : string) : marker_here (lower s) = marker_here s.
Proof.
  unfold marker_here.
  rewrite !prefix_lower; cbn; auto using caseless_eq, caseless_gt, caseless_lt.
Qed.

(** X9: cutting and lower-casing commute, so two lines that differ only in
    the case of their letters declare the same name. *)
Theorem lower_base_of (line : string) : lower (base_of line) = base_of (lower line).
Proof.
  rewrite !base_of_name_part. induction line as [|c r IH]; [done|].
  change (lower (String c r)) with (String (lower_char c) (lower r)).
  rewrite !name_part_cons.
  change (String (lower_char c) (lower r)) with (lower (String c r)).
  rewrite marker_here_lower.
  rewrite !(prefix_lower _ (String c r))
    by (cbn; auto using caseless_eq, caseless_gt, caseless_lt).
  destruct (marker_here (String c r)).
  - by destruct (_ || _).
  - cbn [lower]. by rewrite IH.
Qed.





(** X11: the declared set depends on which lines the manifest has, not on
    their order nor on how often each occurs. *)
Theorem requirements_of_lines (text1 text2 : string) :
  (forall line, line ∈ readlines text1 <-> line ∈ readlines text2) ->
  requirements_of text1 = requirements_of text2.
Proof.
  intros Hsame. apply set_eq. intros x. rewrite !elem_of_requirements_of.
  split; intros (line & Hin & ?); exists line; (split; [by apply Hsame|done]).
Qed.

Lemma requirements_of_lines_witness :
  requirements_of "numpy
flask
" = requirements_of "flask
numpy
flask
".
Proof.
  apply requirements_of_lines. intros line. vm_compute readlines.
  rewrite !elem_of_cons, !elem_of_nil. tauto.
Defined.

End ManifestMore.

(** ** Further properties of the reporter *)

Module ReportMore.
Import PyStr Spec Report ManifestMore.

(** X12: an imported name with an upper-case letter is reported as
    possibly missing whatever the manifest declares: declared names are
    lower-cased, imported names are not. *)
Theorem capitalised_import_missing ast_parse (fs : filesystem)
    (imports reqs : gset string) (x : string) :
  scan_all_py_files ast_parse fs "." = Ok imports ->
  read_requirements fs "requirements.txt" = Ok reqs ->
  x ∈ imports ->
  lower x <> x ->
  x ∈ missing imports reqs.
Proof.
  intros _ Hread Hx Hcase. unfold missing.
  assert (x ∈ imports ∖ reqs) as Hdiff.
  { apply elem_of_difference. split; [done|]. intros Hin. apply Hcase.
    by apply (declared_names_lower_case fs "requirements.txt" reqs). }
  rewrite <- (list_to_set_sorted (imports ∖ reqs)) in Hdiff.
  by apply elem_of_list_to_set in Hdiff.
Qed.

Lemma capitalised_import_missing_witness :
  "PIL" ∈ missing {[ "PIL" ]} {[ "pil" ]}.
Proof.
  apply (capitalised_import_missing Examples.parse_pil Examples.fs_pil).
  - vm_compute. reflexivity.
  - vm_compute. reflexivity.
  - vm_compute. reflexivity.
  - discriminate.
Defined.

Lemma sorted_nil (s : gset string) : sorted s = [] <-> s = ∅.
Proof.
  split.
  - intros Hs. rewrite <- (list_to_set_sorted s), Hs. done.
  - intros ->. apply Permutation_nil_r. rewrite sorted_Permutation.
    by rewrite elements_empty.
Qed.

(** X13: no name is reported both as possibly missing and as possibly
    unused, and the two lists are both empty exactly when the import set
    and the declared set are equal. *)
Theorem report_clean_iff_equal (imports reqs : gset string) :
  (forall x, ¬ (x ∈ missing imports reqs /\ x ∈ unused imports reqs))
  /\ (missing imports reqs = [] /\ unused imports reqs = [] <-> imports = reqs).
Proof.
  unfold missing, unused. split.
  - intros x [H1 H2].
    assert (x ∈ imports ∖ reqs) as Ha.
    { rewrite <- (list_to_set_sorted (imports ∖ reqs)). by apply elem_of_list_to_set. }
    assert (x ∈ reqs ∖ imports) as Hb.
    { rewrite <- (list_to_set_sorted (reqs ∖ imports)). by apply elem_of_list_to_set. }
    apply elem_of_difference in Ha as [_ Ha]. apply elem_of_difference in Hb as [Hb _].
    done.
  - rewrite !sorted_nil. split.
    + intros [H1 H2]. apply set_eq. intros x. split; intros Hx.
      * destruct (decide (x ∈ reqs)) as [|Hn]; [done|].
        assert (x ∈ imports ∖ reqs) as Hd by (by apply elem_of_difference).
        rewrite H1 in Hd. by apply elem_of_empty in Hd.
      * destruct (decide (x ∈ imports)) as [|Hn]; [done|].
        assert (x ∈ reqs ∖ imports) as Hd by (by apply elem_of_difference).
        rewrite H2 in Hd. by apply elem_of_empty in Hd.
    + intros ->. split; apply set_eq; intros x;
        rewrite elem_of_difference; split; try tauto; by intros ?%elem_of_empty.
Qed.

(** X14: the lists printed for the import set and for the declared set
    name each element of the set once, in ascending order. *)
Theorem sorted_enumerates (s : gset string) :
  StronglySorted String.le (sorted s)
  /\ NoDup (sorted s)
  /\ (forall x, x ∈ sorted s <-> x ∈ s)
  /\ length (sorted s) = size s.
Proof.
  split; [apply StronglySorted_sorted|]. split; [apply NoDup_sorted|]. split.
  - intros x. rewrite sorted_Permutation. apply elem_of_elements.
  - by rewrite sorted_Permutation.
Qed.



End ReportMore.

(** ** Further properties of the import extractor *)

Module ExtractMore.
Import PyStr Spec PyStrFacts ExtractFacts.

(** The names found under a block come from the statements of the block. *)
Lemma elem_of_imports_of_block (body : list Ast.node) (x : string) :
  x ∈ imports_of (Ast.Other body) <->
  exists stmt, stmt ∈ body /\ x ∈ imports_of stmt.
Proof.
  rewrite elem_of_imports_of. cbn [Ast.nodes]. split.
  - intros (item & [->|Hin]%elem_of_cons & Hc); [done|].
    apply elem_of_flat_map in Hin as (stmt & Hstmt & Hin).
    exists stmt. split; [done|]. apply elem_of_imports_of. by exists item.
  - intros (stmt & Hstmt & (item & Hin & Hc)%elem_of_imports_of).
    exists item. split; [|done]. right. apply elem_of_flat_map. by exists stmt.
Qed.

(** X17: the import set of a file is the union of the import sets of its
    parts: putting two bodies one after the other unites their sets. *)
Theorem imports_of_app (body1 body2 : list Ast.node) :
  imports_of (Ast.Other (body1 ++ body2))
  = imports_of (Ast.Other body1) ∪ imports_of (Ast.Other body2).
Proof.
  apply set_eq. intros x.
  rewrite elem_of_union, !elem_of_imports_of_block. split.
  - intros (stmt & [?|?]%elem_of_app & ?); [left|right]; by exists stmt.
  - intros [(stmt & ? & ?)|(stmt & ? & ?)]; exists stmt;
      (split; [apply elem_of_app; auto|done]).
Qed.

(** X18: an import nested in a block (a function body, a branch, a [try])
    counts like one at the top of the file: unfolding a block into the
    statements around it leaves the import set unchanged. *)
Theorem imports_of_nested (pre body post : list Ast.node) :
  imports_of (Ast.Other (pre ++ Ast.Other body :: post))
  = imports_of (Ast.Other (pre ++ body ++ post)).
Proof.
  apply set_eq. intros x. rewrite !elem_of_imports_of_block. split.
  - intros (stmt & [?|[->|?]%elem_of_cons]%elem_of_app & Hx).
    + exists stmt. split; [|done]. apply elem_of_app. by left.
    + apply elem_of_imports_of_block in Hx as (inner & ? & ?).
      exists inner. split; [|done]. rewrite !elem_of_app. auto.
    + exists stmt. split; [|done]. rewrite !elem_of_app. auto.
  - intros (stmt & [?|[?|?]%elem_of_app]%elem_of_app & Hx).
    + exists stmt. split; [|done]. apply elem_of_app. by left.
    + exists (Ast.Other body). split.
      * apply elem_of_app. right. by left.
      * apply elem_of_imports_of_block. by exists stmt.
    + exists stmt. split; [|done]. apply elem_of_app. right. by right.
Qed.

End ExtractMore.
